(** * Agilent 4155/4156 driver (pymeasure/instruments/agilent/agilent4156.py)

    A shallow embedding of the driver: the instrument facade [Agilent4156],
    its measurement channels (SMU, VMU, VSU), the sweep variables (VAR1,
    VAR2, VARD) and the two range functions [valid_iv] and
    [valid_compliance].  Driver code runs in a state-and-exception monad
    over a [world] that holds the instrument behind the adapter, the
    messages sent so far, the log and the files written. *)

From Stdlib Require Import String Ascii List ZArith QArith Bool Lia.
From Stdlib Require Import DecimalString Qround.
Import ListNotations.

Open Scope Z_scope.
Open Scope string_scope.

(** ** Python values, exceptions and results *)

(** The exception classes the driver raises or runs into. *)
Inductive exn : Type :=
| ValueError
| TypeError
| RuntimeError
| KeyError
| IndexError
| AttributeError
| UnboundLocalError.

Inductive result (A : Type) : Type :=
| Ok (a : A)
| Raise (e : exn).

Arguments Ok {A} a.
Arguments Raise {A} e.

(** The values a caller or a JSON document hands to a setter. *)
Inductive pyvalue : Type :=
| VInt (z : Z)
| VFloat (q : Q)
| VStr (s : string).

Definition num_of (v : pyvalue) : option Q :=
  match v with
  | VInt z => Some (inject_Z z)
  | VFloat q => Some q
  | VStr _ => None
  end.

(** A table of measured data (a pandas DataFrame): the column names and
    the rows. *)
Record DataFrame : Type := mkDataFrame {
  columns : list string;
  rows : list (list Q)
}.

(** [n * l] on a Python list repeats the list. *)
Definition py_mul_list {A : Type} (n : Z) (l : list A) : list A :=
  concat (repeat l (Z.to_nat n)).

Definition py_min (l : list Z) : option Z :=
  match l with
  | [] => None
  | x :: r => Some (fold_left Z.min r x)
  end.

Definition py_max (l : list Z) : option Z :=
  match l with
  | [] => None
  | x :: r => Some (fold_left Z.max r x)
  end.

(** ** Range functions *)

Definition valid_iv (channel_mode : string) : result (list Z) :=
  if channel_mode =? "V" then Ok [-200; 200]
  else if channel_mode =? "I" then Ok [-1; 1]
  else Raise ValueError.

Definition valid_compliance (channel_mode : string) : result (list Z) :=
  if channel_mode =? "I" then Ok [-200; 200]
  else if channel_mode =? "V" then Ok [-1; 1]
  else Raise ValueError.

(** ** Validators *)

(** Modelled from the spec: the validator [strict_range] of
    pymeasure.instruments.validators, which the driver imports and which
    is not among the sources.  A value outside the legal range is a
    validation error (a [ValueError], as in the driver's own checks); a
    value is inside when it lies between the least and the greatest
    element of [values]. *)
Definition strict_range (value : pyvalue) (values : list Z) : result pyvalue :=
  match num_of value with
  | None => Raise TypeError
  | Some q =>
      match py_min values, py_max values with
      | Some lo, Some hi =>
          if Qle_bool (inject_Z lo) q && Qle_bool q (inject_Z hi)
          then Ok value else Raise ValueError
      | _, _ => Raise ValueError
      end
  end.

(** Python's [==] between two values: numbers compare by value, a string
    only equals the same string. *)
Definition py_eq (a b : pyvalue) : bool :=
  match a, b with
  | VStr s, VStr t => (s =? t)%string
  | VStr _, _ | _, VStr _ => false
  | _, _ =>
      match num_of a, num_of b with
      | Some x, Some y => Qeq_bool x y
      | _, _ => false
      end
  end.

Definition py_in (value : pyvalue) (values : list pyvalue) : bool :=
  existsb (py_eq value) values.

(** Modelled from the spec: the validator [strict_discrete_set] of
    pymeasure.instruments.validators, not among the sources: a value that
    is not in the legal set is a validation error. *)
Definition strict_discrete_set (value : pyvalue) (values : list pyvalue)
  : result pyvalue :=
  if py_in value values then Ok value else Raise ValueError.

(** ** The adapter and the world *)

(** The transport the driver is given: writing a message, a query for a
    text reply, a query for a sequence of numbers, and the drain of the
    instrument's error queue.  A query leaves the instrument as it is;
    a write and the drain change it. *)
Class Adapter (device : Type) : Type := {
  adapter_write : string -> device -> device;
  adapter_ask : string -> device -> string;
  adapter_values : string -> device -> list Q;
  adapter_check_errors : device -> list string * device
}.

(** What Python itself and the base class [Channel] contribute and the
    sources do not fix: the text of a float under [str] and under [%g],
    [os.path.splitext], and the attribute [channel] that two setters of
    [SMU] and one of [VSU] read from the channel object. *)
Class Runtime : Type := {
  str_float : Q -> string;
  format_g : Q -> string;
  splitext : string -> string * string;
  channel_attribute : string -> result string
}.

(** What goes over the transport, in order. *)
Inductive event : Type :=
| Write (command : string)
| Ask (command : string)
| Values (command : string)
| CheckErrors.

Definition is_write (e : event) : bool :=
  match e with
  | Write _ => true
  | _ => false
  end.

Record world (device : Type) : Type := mkWorld {
  dev : device;
  trace : list event;
  logs : list string;
  attrs : list (string * string * pyvalue);
  files : list (string * DataFrame)
}.

Arguments mkWorld {device} dev trace logs attrs files.
Arguments dev {device} w.
Arguments trace {device} w.
Arguments logs {device} w.
Arguments attrs {device} w.
Arguments files {device} w.

(** Driver code: a state transformer on the world that returns a value
    or raises. *)
Definition M (device A : Type) : Type := world device -> result A * world device.

Definition ret {device A : Type} (a : A) : M device A :=
  fun w => (Ok a, w).

Definition raise {device A : Type} (e : exn) : M device A :=
  fun w => (Raise e, w).

Definition bind {device A B : Type} (c : M device A) (k : A -> M device B)
  : M device B :=
  fun w =>
    match c w with
    | (Ok a, w') => k a w'
    | (Raise e, w') => (Raise e, w')
    end.

Definition lift {device A : Type} (r : result A) : M device A :=
  fun w => (r, w).

Declare Scope driver_scope.
Delimit Scope driver_scope with driver.

Notation "x <- c ;; k" := (bind c (fun x => k))
  (at level 100, c at next level, right associativity) : driver_scope.
Notation "c ;;; k" := (bind c (fun _ => k))
  (at level 100, right associativity) : driver_scope.

Open Scope driver_scope.

(** Python's [str] of a value, as an f-string or [%s] renders it. *)
Definition py_str {R : Runtime} (v : pyvalue) : string :=
  match v with
  | VInt z => NilZero.string_of_int (Z.to_int z)
  | VFloat q => str_float q
  | VStr s => s
  end.

(** [fmt % value] for the conversion [%g]. *)
Definition py_format_g {R : Runtime} (v : pyvalue) : result string :=
  match v with
  | VInt z => Ok (format_g (inject_Z z))
  | VFloat q => Ok (format_g q)
  | VStr _ => Raise TypeError
  end.

Section Transport.

Context {device : Type} {AD : Adapter device}.

Definition write (command : string) : M device unit :=
  fun w => (Ok tt, mkWorld (adapter_write command (dev w))
                           (trace w ++ [Write command])%list
                           (logs w) (attrs w) (files w)).

Definition ask (command : string) : M device string :=
  fun w => (Ok (adapter_ask command (dev w)),
            mkWorld (dev w) (trace w ++ [Ask command])%list
                    (logs w) (attrs w) (files w)).

Definition values (command : string) : M device (list Q) :=
  fun w => (Ok (adapter_values command (dev w)),
            mkWorld (dev w) (trace w ++ [Values command])%list
                    (logs w) (attrs w) (files w)).

Definition check_errors : M device (list string) :=
  fun w => let (errors, d) := adapter_check_errors (dev w) in
           (Ok errors, mkWorld d (trace w ++ [CheckErrors])%list
                               (logs w) (attrs w) (files w)).

Definition log_info (message : string) : M device unit :=
  fun w => (Ok tt, mkWorld (dev w) (trace w)
                           (logs w ++ [message])%list (attrs w) (files w)).

(** [df.to_csv(path, index=False)] *)
Definition to_csv (path : string) (df : DataFrame) : M device unit :=
  fun w => (Ok tt, mkWorld (dev w) (trace w) (logs w) (attrs w)
                           (files w ++ [(path, df)])%list).

Definition set_plain_attribute (obj name : string) (value : pyvalue)
  : M device unit :=
  fun w => (Ok tt, mkWorld (dev w) (trace w) (logs w)
                           (attrs w ++ [(obj, name, value)])%list (files w)).

End Transport.

(** ** Signal names *)

(** [c.isalpha()], on the ASCII characters that names sent to the
    instrument are made of. *)
Definition isalpha (c : ascii) : bool :=
  let n := nat_of_ascii c in
  ((65 <=? n) && (n <=? 90) || (97 <=? n) && (n <=? 122))%nat.

(** [len(name) > 6] is tested first; only when it fails is [name[0]]
    read. *)
Definition check_current_voltage_name {device : Type} (name : string)
  : M device string :=
  let rename :=
    let new_name := "a" ++ substring 0 5 name in
    log_info ("Renaming " ++ name ++ " to " ++ new_name ++ "...") ;;;
    ret new_name in
  if (6 <? String.length name)%nat then rename
  else match name with
       | EmptyString => raise IndexError
       | String c _ => if isalpha c then ret name else rename
       end.

(** ** Property machinery

    The driver declares most attributes through [Instrument.control] and
    [Channel.control] of the package's base classes, which are not among
    the sources. *)

Section Control.

Context {device : Type} {AD : Adapter device}.

(** Modelled from the spec: the hooks [check_get_errors] and
    [check_set_errors] of the missing base class: the error queue is
    drained after the message when the flag of the property is set. *)
Definition drain_when (flag : bool) : M device unit :=
  if flag then (_ <- check_errors ;; ret tt) else ret tt.

(** Modelled from the spec: the getter that the missing [control] builds:
    reading a property sends its query and returns the reply. *)
Definition control_get (get_command : string) (check_get_errors : bool)
  : M device string :=
  reply <- ask get_command ;;
  drain_when check_get_errors ;;;
  ret reply.

(** Modelled from the spec: the setter that the missing [control] builds:
    the value is validated before any message is sent, then passed through
    [set_process], formatted into the set command and written. *)
Definition control_set (set_command : pyvalue -> result string)
           (validator : pyvalue -> result pyvalue)
           (set_process : pyvalue -> M device pyvalue)
           (check_set_errors : bool) (value : pyvalue) : M device unit :=
  v <- lift (validator value) ;;
  v' <- set_process v ;;
  command <- lift (set_command v') ;;
  write command ;;;
  drain_when check_set_errors.

(** [d[key]] on a dictionary with string keys, [None] for a KeyError. *)
Fixpoint dict_get {A : Type} (d : list (string * A)) (key : string)
  : option A :=
  match d with
  | [] => None
  | (k, v) :: r => if (k =? key)%string then Some v else dict_get r key
  end.

(** Modelled from the spec: [map_values=True] in the missing [control],
    on writing: the key is validated against the keys of the fixed mapping
    and its entry is what goes into the command. *)
Definition map_set (d : list (string * string)) (value : pyvalue)
  : result pyvalue :=
  match strict_discrete_set value (map (fun kv => VStr (fst kv)) d) with
  | Raise e => Raise e
  | Ok (VStr k) =>
      match dict_get d k with
      | Some v => Ok (VStr v)
      | None => Raise KeyError
      end
  | Ok _ => Raise KeyError
  end.

(** Modelled from the spec: [map_values=True] in the missing [control],
    on reading: the key whose entry is the reply. *)
Fixpoint map_get (d : list (string * string)) (reply : string)
  : result string :=
  match d with
  | [] => Raise KeyError
  | (k, v) :: r => if (v =? reply)%string then Ok k else map_get r reply
  end.

End Control.

(** The set commands: [fmt % value] with the conversion [%s], with [%s]
    between quotes, and with [%g]. *)
Definition percent_s {R : Runtime} (prefix : string) (v : pyvalue)
  : result string :=
  Ok (prefix ++ py_str v).

Definition percent_s_quoted {R : Runtime} (prefix : string) (v : pyvalue)
  : result string :=
  Ok (prefix ++ "'" ++ py_str v ++ "'").

Definition percent_g {R : Runtime} (prefix : string) (v : pyvalue)
  : result string :=
  match py_format_g v with
  | Ok t => Ok (prefix ++ t)
  | Raise e => Raise e
  end.

(** [id.upper()] *)
Definition upper_ascii (c : ascii) : ascii :=
  let n := nat_of_ascii c in
  if ((97 <=? n) && (n <=? 122))%nat then ascii_of_nat (n - 32) else c.

Fixpoint upper (s : string) : string :=
  match s with
  | EmptyString => EmptyString
  | String c r => String (upper_ascii c) (upper r)
  end.

(** ** Measurement channels *)

Inductive channel_kind : Type := SMU_kind | VMU_kind | VSU_kind.

Record Channel : Type := mkChannel {
  kind : channel_kind;
  id : string
}.

Module AgilentMeasurementChannel.
Section Defs.

Context {device : Type} {AD : Adapter device} {R : Runtime}.

(** The class declares [values=[]] for [channel_mode], a dynamic
    property; [SMU.__init__] and [VMU.__init__] assign
    [channel_mode_values], [VSU.__init__] assigns nothing. *)
Definition channel_mode_values (k : channel_kind) : list pyvalue :=
  match k with
  | SMU_kind => [VStr "V"; VStr "I"; VStr "COMM"]
  | VMU_kind => [VStr "V"; VStr "DVOL"]
  | VSU_kind => []
  end.

Definition name_process (v : pyvalue) : M device pyvalue :=
  match v with
  | VStr name => n <- check_current_voltage_name name ;; ret (VStr n)
  | _ => raise TypeError
  end.

Definition voltage_name_set (ch : Channel) (value : pyvalue) : M device unit :=
  control_set (percent_s_quoted (":PAGE:CHAN:" ++ id ch ++ ":VNAME "))
              (fun v => Ok v) name_process false value.

Definition reset_settings (ch : Channel) : M device (list string) :=
  write (":PAGE:CHAN:" ++ id ch ++ ":DIS") ;;;
  check_errors.

Definition channel_mode (ch : Channel) : M device string :=
  control_get (":PAGE:CHAN:" ++ id ch ++ ":MODE?") true.

Definition channel_mode_set (ch : Channel) (value : pyvalue) : M device unit :=
  control_set (percent_s (":PAGE:CHAN:" ++ id ch ++ ":MODE "))
              (fun v => strict_discrete_set v (channel_mode_values (kind ch)))
              ret true value.

Definition channel_function (ch : Channel) : M device string :=
  control_get (":PAGE:CHAN:" ++ id ch ++ ":FUNC?") true.

Definition channel_function_set (ch : Channel) (value : pyvalue)
  : M device unit :=
  control_set (percent_s (":PAGE:CHAN:" ++ id ch ++ ":FUNC "))
              (fun v => strict_discrete_set v
                          [VStr "VAR1"; VStr "VAR2"; VStr "VARD"; VStr "CONS"])
              ret true value.

End Defs.
End AgilentMeasurementChannel.

(** ** The operating mode of the analyzer

    [Agilent4156.analyzer_mode]; the channels read it through
    [self.parent]. *)

Section AnalyzerMode.

Context {device : Type} {AD : Adapter device} {R : Runtime}.

Definition analyzer_mode_map : list (string * string) :=
  [("SWEEP", "SWE"); ("SAMPLING", "SAMP")].

Definition analyzer_mode : M device string :=
  reply <- control_get ":PAGE:CHAN:MODE?" true ;;
  lift (map_get analyzer_mode_map reply).

Definition analyzer_mode_set (value : pyvalue) : M device unit :=
  control_set (percent_s ":PAGE:CHAN:MODE ")
              (map_set analyzer_mode_map) ret true value.

End AnalyzerMode.

Module SMU.
Section Defs.

Context {device : Type} {AD : Adapter device} {R : Runtime}.

Definition new (id : string) : Channel := mkChannel SMU_kind (upper id).

Definition series_resistance_set (ch : Channel) (value : pyvalue)
  : M device unit :=
  control_set (percent_s (":PAGE:CHAN:" ++ id ch ++ ":SRES "))
              (fun v => strict_discrete_set v
                          [VStr "0OHM"; VStr "10KOHM"; VStr "100KOHM";
                           VStr "1MOHM"])
              ret true value.

Definition current_name_set (ch : Channel) (value : pyvalue) : M device unit :=
  control_set (percent_s_quoted (":PAGE:CHAN:" ++ id ch ++ ":INAME "))
              (fun v => Ok v) AgilentMeasurementChannel.name_process
              false value.

(** [(self.channel_mode != 'COMM') and (self.channel_function == 'CONS')]:
    the function is only read when the mode is not COMM. *)
Definition constant_ready (ch : Channel) : M device bool :=
  mode <- AgilentMeasurementChannel.channel_mode ch ;;
  if negb (mode =? "COMM")%string
  then (func <- AgilentMeasurementChannel.channel_function ch ;;
        ret (func =? "CONS")%string)
  else ret false.

Definition validate_cons (ch : Channel) : M device (list Z) :=
  ready <- constant_ready ch ;;
  if negb ready then raise ValueError
  else (mode <- AgilentMeasurementChannel.channel_mode ch ;;
        lift (valid_iv mode)).

Definition validate_compl (ch : Channel) : M device (list Z) :=
  ready <- constant_ready ch ;;
  if negb ready then raise ValueError
  else (mode <- AgilentMeasurementChannel.channel_mode ch ;;
        lift (valid_compliance mode)).

Definition constant_value_set (ch : Channel) (const_value : pyvalue)
  : M device unit :=
  values <- validate_cons ch ;;
  value <- lift (strict_range const_value values) ;;
  mode <- analyzer_mode ;;
  (if (mode =? "SWEEP")%string
   then write (":PAGE:MEAS:CONS:" ++ id ch ++ " " ++ py_str value)
   else (c <- lift (channel_attribute (id ch)) ;;
         write (":PAGE:MEAS:SAMP:CONS:" ++ c ++ " " ++ py_str value))) ;;;
  _ <- check_errors ;;
  ret tt.

Definition compliance_set (ch : Channel) (comp : pyvalue) : M device unit :=
  values <- validate_compl ch ;;
  value <- lift (strict_range comp values) ;;
  mode <- analyzer_mode ;;
  (if (mode =? "SWEEP")%string
   then (c <- lift (channel_attribute (id ch)) ;;
         write (":PAGE:MEAS:CONS:" ++ c ++ ":COMP " ++ py_str value))
   else (c <- lift (channel_attribute (id ch)) ;;
         write (":PAGE:MEAS:SAMP:CONS:" ++ c ++ ":COMP " ++ py_str value))) ;;;
  _ <- check_errors ;;
  ret tt.

End Defs.
End SMU.

Module VMU.

Definition new (id : string) : Channel := mkChannel VMU_kind (upper id).

End VMU.

Module VSU.
Section Defs.

Context {device : Type} {AD : Adapter device} {R : Runtime}.

Definition new (id : string) : Channel := mkChannel VSU_kind (upper id).

Definition constant_value_set (ch : Channel) (const_value : pyvalue)
  : M device unit :=
  value <- lift (strict_range const_value [-200; 200]) ;;
  mode <- analyzer_mode ;;
  (if (mode =? "SWEEP")%string
   then write (":PAGE:MEAS:CONS:" ++ id ch ++ " " ++ py_str value)
   else (c <- lift (channel_attribute (id ch)) ;;
         write (":PAGE:MEAS:SAMP:CONS:" ++ c ++ " " ++ py_str value))) ;;;
  _ <- check_errors ;;
  ret tt.

End Defs.
End VSU.

(** ** Sweep variables *)

(** The channels a sweep variable looks through, in this order. *)
Definition channels : list string :=
  ["SMU1"; "SMU2"; "SMU3"; "SMU4"; "VSU1"; "VSU2"].

Module VARX.
Section Defs.

Context {device : Type} {AD : Adapter device} {R : Runtime}.

(** The loop of [channel_mode]: [ch_mode] is the local variable, unbound
    ([None]) until a channel matches and assigned again at every later
    match. *)
Fixpoint scan (self_id : string) (chs : list string)
         (ch_mode : option string) : M device (option string) :=
  match chs with
  | [] => ret ch_mode
  | ch :: rest =>
      ch_func <- ask (":PAGE:CHAN:" ++ ch ++ ":FUNC?") ;;
      if (ch_func =? self_id)%string
      then (m <- ask (":PAGE:CHAN:" ++ ch ++ ":MODE?") ;;
            scan self_id rest (Some m))
      else scan self_id rest ch_mode
  end.

Definition channel_mode (self_id : string) : M device string :=
  ch_mode <- scan self_id channels None ;;
  match ch_mode with
  | Some m => ret m
  | None => raise UnboundLocalError
  end.

Definition start_set (self_id : string) (value : pyvalue) : M device unit :=
  mode <- channel_mode self_id ;;
  values <- lift (valid_iv mode) ;;
  set_value <- lift (strict_range value values) ;;
  write (":PAGE:MEAS:" ++ self_id ++ ":STAR " ++ py_str set_value) ;;;
  _ <- check_errors ;;
  ret tt.

Definition stop_set (self_id : string) (value : pyvalue) : M device unit :=
  mode <- channel_mode self_id ;;
  values <- lift (valid_iv mode) ;;
  set_value <- lift (strict_range value values) ;;
  write (":PAGE:MEAS:" ++ self_id ++ ":STOP " ++ py_str set_value) ;;;
  _ <- check_errors ;;
  ret tt.

Definition step_set (self_id : string) (value : pyvalue) : M device unit :=
  mode <- channel_mode self_id ;;
  iv <- lift (valid_iv mode) ;;
  let values := py_mul_list 2 iv in
  set_value <- lift (strict_range value values) ;;
  write (":PAGE:MEAS:" ++ self_id ++ ":STEP " ++ py_str set_value) ;;;
  _ <- check_errors ;;
  ret tt.

Definition compliance_set (self_id : string) (value : pyvalue)
  : M device unit :=
  mode <- channel_mode self_id ;;
  cv <- lift (valid_compliance mode) ;;
  let values := py_mul_list 2 cv in
  set_value <- lift (strict_range value values) ;;
  write (":PAGE:MEAS:" ++ self_id ++ ":COMP " ++ py_str set_value) ;;;
  _ <- check_errors ;;
  ret tt.

End Defs.
End VARX.

Module VAR1.
Section Defs.

Context {device : Type} {AD : Adapter device} {R : Runtime}.

Definition id : string := upper "VAR1".

Definition spacing_map : list (string * string) :=
  [("LINEAR", "LIN"); ("LOG10", "L10"); ("LOG25", "L25"); ("LOG50", "L50")].

Definition spacing_set (value : pyvalue) : M device unit :=
  control_set (percent_s (":PAGE:MEAS:" ++ id ++ ":SPAC "))
              (map_set spacing_map) ret true value.

Definition spacing : M device string :=
  reply <- control_get (":PAGE:MEAS:" ++ id ++ ":SPAC?") true ;;
  lift (map_get spacing_map reply).

End Defs.
End VAR1.

Module VAR2.
Section Defs.

Context {device : Type} {AD : Adapter device} {R : Runtime}.

Definition id : string := upper "VAR2".

(** [range(1, 128)] *)
Definition points_values : list pyvalue :=
  map (fun n => VInt (Z.of_nat n)) (seq 1 127).

Definition points_set (value : pyvalue) : M device unit :=
  control_set (percent_g (":PAGE:MEAS:" ++ id ++ ":POINTS "))
              (fun v => strict_discrete_set v points_values) ret true value.

End Defs.
End VAR2.

Module VARD.
Section Defs.

Context {device : Type} {AD : Adapter device} {R : Runtime}.

Definition id : string := "VARD".

(** The same loop as [VARX.channel_mode], with the designator written
    out as "VARD". *)
Definition channel_mode : M device string :=
  ch_mode <- VARX.scan "VARD" channels None ;;
  match ch_mode with
  | Some m => ret m
  | None => raise UnboundLocalError
  end.

Definition offset_set (offset_value : pyvalue) : M device unit :=
  mode <- channel_mode ;;
  iv <- lift (valid_iv mode) ;;
  let values := py_mul_list 2 iv in
  value <- lift (strict_range offset_value values) ;;
  write (":PAGE:MEAS:VARD:OFFSET " ++ py_str value) ;;;
  _ <- check_errors ;;
  ret tt.

Definition ratio_set (value : pyvalue) : M device unit :=
  control_set (percent_g ":PAGE:MEAS:VARD:RATIO ")
              (fun v => Ok v) ret false value.

Definition compliance_set (value : pyvalue) : M device unit :=
  mode <- channel_mode ;;
  cv <- lift (valid_compliance mode) ;;
  let values := py_mul_list 2 cv in
  set_value <- lift (strict_range value values) ;;
  write (":PAGE:MEAS:VARD:COMP " ++ py_str set_value) ;;;
  _ <- check_errors ;;
  ret tt.

End Defs.
End VARD.

(** ** Tables of measured data *)

(** What [self.values] returns is a flat list; [np.column_stack] makes a
    two-dimensional array, kept here as its list of rows. *)
Inductive ndarray : Type :=
| Arr1 (column : list Q)
| Arr2 (rows : list (list Q)).

Definition as_rows (a : ndarray) : list (list Q) :=
  match a with
  | Arr1 column => map (fun x => [x]) column
  | Arr2 rows => rows
  end.

(** [np.column_stack((a, b))]: the row counts must agree. *)
Definition column_stack (a b : ndarray) : result ndarray :=
  let ra := as_rows a in
  let rb := as_rows b in
  if (List.length ra =? List.length rb)%nat
  then Ok (Arr2 (map (fun ab => (fst ab ++ snd ab)%list) (combine ra rb)))
  else Raise ValueError.

(** [pd.DataFrame(data=data, columns=header, index=None)]: every row must
    have one entry per column name. *)
Definition new_DataFrame (data : ndarray) (header : list string)
  : result DataFrame :=
  let rs := as_rows data in
  if forallb (fun r => (List.length r =? List.length header)%nat) rs
  then Ok (mkDataFrame header rs)
  else Raise ValueError.

(** [s.split(',')] *)
Fixpoint split_comma (s : string) : list string :=
  match s with
  | EmptyString => [EmptyString]
  | String c r =>
      if Ascii.eqb c ","%char then EmptyString :: split_comma r
      else match split_comma r with
           | h :: t => String c h :: t
           | [] => [String c EmptyString]
           end
  end.

(** [filter(None, varlist)] keeps the strings that are not empty. *)
Definition nonempty (s : string) : bool :=
  match s with
  | EmptyString => false
  | String _ _ => true
  end.

(** [int(text)] for a reply: blanks around an optional sign and decimal
    digits (digit-group underscores are not read). *)
Definition is_space (c : ascii) : bool :=
  let n := nat_of_ascii c in
  ((n =? 32) || (9 <=? n) && (n <=? 13))%nat.

Fixpoint lstrip (s : string) : string :=
  match s with
  | String c r => if is_space c then lstrip r else s
  | EmptyString => EmptyString
  end.

Definition digit_of (c : ascii) : option Z :=
  let n := nat_of_ascii c in
  if ((48 <=? n) && (n <=? 57))%nat then Some (Z.of_nat (n - 48)) else None.

(** Digits up to trailing blanks; [acc] is the number read so far and
    [seen] tells whether a digit was read. *)
Fixpoint digits (s : string) (acc : Z) (seen : bool) : option Z :=
  match s with
  | EmptyString => if seen then Some acc else None
  | String c r =>
      match digit_of c with
      | Some d => digits r (10 * acc + d) true
      | None =>
          if seen && is_space c && negb (nonempty (lstrip r)) then Some acc
          else None
      end
  end.

Definition py_int (text : string) : result Z :=
  let body := lstrip text in
  let parsed :=
    match body with
    | String "-" r => option_map Z.opp (digits r 0 false)
    | String "+" r => digits r 0 false
    | _ => digits body 0 false
    end in
  match parsed with
  | Some z => Ok z
  | None => Raise ValueError
  end.

(** ** The instrument *)

(** The argument of [save] and [save_var]: a list of names, one name, or
    anything else. *)
Inductive trace_arg : Type :=
| TraceList (names : list pyvalue)
| TraceStr (name : string)
| TraceOther.

(** The objects the instrument owns. *)
Inductive instrument_object : Type :=
| MeasurementChannel (ch : Channel)
| SweepVAR1
| SweepVAR2
| SweepVARD.

(** The configuration document after [json.load]: slot name to settings,
    both in the order of the document. *)
Definition settings : Type := list (string * pyvalue).
Definition document : Type := list (string * settings).

Module Agilent4156.
Section Defs.

Context {device : Type} {AD : Adapter device} {R : Runtime}.

Definition smu1 : Channel := SMU.new "SMU1".
Definition smu2 : Channel := SMU.new "SMU2".
Definition smu3 : Channel := SMU.new "SMU3".
Definition smu4 : Channel := SMU.new "SMU4".
Definition vmu1 : Channel := VMU.new "VMU1".
Definition vmu2 : Channel := VMU.new "VMU2".
Definition vsu1 : Channel := VSU.new "VSU1".
Definition vsu2 : Channel := VSU.new "VSU2".

Definition stop : M device unit :=
  write ":PAGE:SCON:STOP".

Definition measure (period points : pyvalue) : M device unit :=
  mode <- analyzer_mode ;;
  if (mode =? "SWEEP")%string
  then write ":PAGE:SCON:MEAS:SING; *OPC?"
  else (write (":PAGE:MEAS:SAMP:PER " ++ py_str period) ;;;
        write (":PAGE:MEAS:SAMP:POIN " ++ py_str points) ;;;
        write ":PAGE:SCON:MEAS:SING; *OPC?").

(** The pauses between the resets ([time.sleep]) leave no mark here. *)
Definition disable_all : M device unit :=
  _ <- AgilentMeasurementChannel.reset_settings smu1 ;;
  _ <- AgilentMeasurementChannel.reset_settings smu2 ;;
  _ <- AgilentMeasurementChannel.reset_settings smu3 ;;
  _ <- AgilentMeasurementChannel.reset_settings smu4 ;;
  _ <- AgilentMeasurementChannel.reset_settings vmu1 ;;
  _ <- AgilentMeasurementChannel.reset_settings vmu2 ;;
  ret tt.

Definition obj_dict : list (string * instrument_object) :=
  [("SMU1", MeasurementChannel smu1);
   ("SMU2", MeasurementChannel smu2);
   ("SMU3", MeasurementChannel smu3);
   ("SMU4", MeasurementChannel smu4);
   ("VMU1", MeasurementChannel vmu1);
   ("VMU2", MeasurementChannel vmu2);
   ("VSU1", MeasurementChannel vsu1);
   ("VSU2", MeasurementChannel vsu2);
   ("VAR1", SweepVAR1);
   ("VAR2", SweepVAR2);
   ("VARD", SweepVARD)].

Definition object_name (obj : instrument_object) : string :=
  match obj with
  | MeasurementChannel ch => id ch
  | SweepVAR1 => VAR1.id
  | SweepVAR2 => VAR2.id
  | SweepVARD => VARD.id
  end.

(** Two of the instrument's objects are the same object when they carry
    the same designator. *)
Definition same_object (a b : instrument_object) : bool :=
  (object_name a =? object_name b)%string.

(** [d[key] = value] on a dictionary keyed by objects: an entry that is
    there keeps its place, a new one goes to the end. *)
Fixpoint dict_set (d : list (instrument_object * settings))
         (key : instrument_object) (value : settings)
  : list (instrument_object * settings) :=
  match d with
  | [] => [(key, value)]
  | (k, v) :: r =>
      if same_object k key then (k, value) :: r
      else (k, v) :: dict_set r key value
  end.

(** The first loop of [configure]:
    [new_settings_dict[obj_dict[key]] = value] for every item. *)
Fixpoint translate (items : document)
         (new_settings_dict : list (instrument_object * settings))
  : result (list (instrument_object * settings)) :=
  match items with
  | [] => Ok new_settings_dict
  | (key, value) :: rest =>
      match dict_get obj_dict key with
      | None => Raise KeyError
      | Some obj => translate rest (dict_set new_settings_dict obj value)
      end
  end.

Definition is_name (setting name : string) : bool := (setting =? name)%string.

(** [setattr(obj, setting, value)]: a property with a setter runs it, a
    property without one refuses, any other name becomes a plain
    attribute of the object.  The legal mode sets stay as [__init__]
    left them. *)
Definition setattr (obj : instrument_object) (setting : string)
           (value : pyvalue) : M device unit :=
  let plain := set_plain_attribute (object_name obj) setting value in
  match obj with
  | MeasurementChannel ch =>
      if is_name setting "voltage_name"
      then AgilentMeasurementChannel.voltage_name_set ch value
      else if is_name setting "channel_mode"
      then AgilentMeasurementChannel.channel_mode_set ch value
      else if is_name setting "channel_function"
      then AgilentMeasurementChannel.channel_function_set ch value
      else if is_name setting "disable" then raise AttributeError
      else match kind ch with
           | SMU_kind =>
               if is_name setting "series_resistance"
               then SMU.series_resistance_set ch value
               else if is_name setting "constant_value"
               then SMU.constant_value_set ch value
               else if is_name setting "compliance"
               then SMU.compliance_set ch value
               else if is_name setting "current_name"
               then SMU.current_name_set ch value
               else plain
           | VMU_kind => plain
           | VSU_kind =>
               if is_name setting "constant_value"
               then VSU.constant_value_set ch value
               else plain
           end
  | SweepVAR1 =>
      if is_name setting "channel_mode" then raise AttributeError
      else if is_name setting "start" then VARX.start_set VAR1.id value
      else if is_name setting "stop" then VARX.stop_set VAR1.id value
      else if is_name setting "step" then VARX.step_set VAR1.id value
      else if is_name setting "compliance"
      then VARX.compliance_set VAR1.id value
      else if is_name setting "spacing" then VAR1.spacing_set value
      else plain
  | SweepVAR2 =>
      if is_name setting "channel_mode" then raise AttributeError
      else if is_name setting "start" then VARX.start_set VAR2.id value
      else if is_name setting "stop" then VARX.stop_set VAR2.id value
      else if is_name setting "step" then VARX.step_set VAR2.id value
      else if is_name setting "compliance"
      then VARX.compliance_set VAR2.id value
      else if is_name setting "points" then VAR2.points_set value
      else plain
  | SweepVARD =>
      if is_name setting "channel_mode" then raise AttributeError
      else if is_name setting "offset" then VARD.offset_set value
      else if is_name setting "ratio" then VARD.ratio_set value
      else if is_name setting "compliance" then VARD.compliance_set value
      else plain
  end.

(** [for setting, value in setup.items(): setattr(obj, setting, value)] *)
Fixpoint apply_setup (obj : instrument_object) (setup : settings)
  : M device unit :=
  match setup with
  | [] => ret tt
  | (setting, value) :: rest =>
      setattr obj setting value ;;;
      apply_setup obj rest
  end.

(** [for obj, setup in new_settings_dict.items(): ...] *)
Fixpoint apply_all (d : list (instrument_object * settings))
  : M device unit :=
  match d with
  | [] => ret tt
  | (obj, setup) :: rest =>
      apply_setup obj setup ;;;
      apply_all rest
  end.

(** [configure], from what [json.load] makes of the file: the document,
    or [None] when the file is not JSON; the decoding error is then printed
    and passed over, and [instr_settings] is still unbound where the first
    loop reads it. *)
Definition configure (config_file : option document) : M device unit :=
  disable_all ;;;
  match config_file with
  | None => raise UnboundLocalError
  | Some instr_settings =>
      new_settings_dict <- lift (translate instr_settings []) ;;
      apply_all new_settings_dict
  end.

(** [for name in trace_list: self.write(...)] *)
Fixpoint write_each (prefix : string) (names : list pyvalue)
  : M device unit :=
  match names with
  | [] => ret tt
  | name :: rest =>
      write (prefix ++ "'" ++ py_str name ++ "'") ;;;
      write_each prefix rest
  end.

Definition save (trace_list : trace_arg) : M device unit :=
  write ":PAGE:DISP:MODE LIST" ;;;
  match trace_list with
  | TraceList names =>
      if (8 <? List.length names)%nat then raise RuntimeError
      else write_each ":PAGE:DISP:LIST " names
  | TraceStr name => write (":PAGE:DISP:LIST '" ++ name ++ "'")
  | TraceOther => raise TypeError
  end.

Definition save_var (trace_list : trace_arg) : M device unit :=
  write ":PAGE:DISP:MODE LIST" ;;;
  match trace_list with
  | TraceList names =>
      if (2 <? List.length names)%nat then raise RuntimeError
      else write_each ":PAGE:DISP:DVAR " names
  | TraceStr name => write (":PAGE:DISP:DVAR '" ++ name ++ "'")
  | TraceOther => raise TypeError
  end.

Definition data_variables : M device (list string) :=
  dlist <- ask ":PAGE:DISP:LIST?" ;;
  dvar <- ask ":PAGE:DISP:DVAR?" ;;
  let varlist := (split_comma dlist ++ split_comma dvar)%list in
  ret (filter nonempty varlist).

(** The loop of [get_data] over [enumerate(header)], with the locals
    [lastdata] and [data], unbound ([None]) before the first round. *)
Fixpoint fetch (i : nat) (header : list string)
         (lastdata data : option ndarray)
  : M device (option ndarray * option ndarray) :=
  match header with
  | [] => ret (lastdata, data)
  | listvar :: rest =>
      column <- values (":DATA? '" ++ listvar ++ "'") ;;
      if (i =? 0)%nat
      then fetch (S i) rest (Some (Arr1 column)) (Some (Arr1 column))
      else match lastdata with
           | None => raise UnboundLocalError
           | Some last =>
               stacked <- lift (column_stack last (Arr1 column)) ;;
               fetch (S i) rest (Some stacked) (Some stacked)
           end
  end.

(** [get_data(path)]; [header] is unbound ([None]) when the instrument
    reports the operation as not complete, and [data] when there is no
    saved variable. *)
Definition get_data (path : option string) : M device DataFrame :=
  opc <- ask "*OPC?" ;;
  done <- lift (py_int opc) ;;
  header <- (if (done =? 0)%Z then ret None
             else (h <- data_variables ;; ret (Some h))) ;;
  write ":FORM:DATA ASC" ;;;
  match header with
  | None => raise UnboundLocalError
  | Some header =>
      locals <- fetch 0 header None None ;;
      match snd locals with
      | None => raise UnboundLocalError
      | Some data =>
          df <- lift (new_DataFrame data header) ;;
          match path with
          | None => ret df
          | Some path =>
              let ext := snd (splitext path) in
              let path := if (ext =? ".csv")%string then path
                          else path ++ ".csv" in
              to_csv path df ;;;
              ret df
          end
      end
  end.

End Defs.
End Agilent4156.

(** ** A bench instrument

    An instrument for running the driver on: it answers a query from a
    fixed table, keeps the messages written to it and hands out its queued
    errors on a drain. *)

Record bench : Type := mkBench {
  bench_replies : list (string * string);
  bench_numbers : list (string * list Q);
  bench_errors : list string;
  bench_inbox : list string
}.

Definition bench_lookup {A : Type} (table : list (string * A)) (default : A)
           (command : string) : A :=
  match find (fun kv => (fst kv =? command)%string) table with
  | Some kv => snd kv
  | None => default
  end.

#[global] Instance bench_adapter : Adapter bench := {
  adapter_write command d :=
    mkBench (bench_replies d) (bench_numbers d) (bench_errors d)
            (bench_inbox d ++ [command])%list;
  adapter_ask command d := bench_lookup (bench_replies d) "" command;
  adapter_values command d := bench_lookup (bench_numbers d) [] command;
  adapter_check_errors d :=
    (bench_errors d,
     mkBench (bench_replies d) (bench_numbers d) [] (bench_inbox d))
}.

(** A runtime for the bench: floats print as whole numbers, which is what
    the examples use, paths come without an extension, and the attribute
    [channel] is the designator. *)
Definition whole (q : Q) : string :=
  NilZero.string_of_int (Z.to_int (Qfloor q)).

#[global] Instance bench_runtime : Runtime := {
  str_float q := whole q ++ ".0";
  format_g q := whole q;
  splitext path := (path, "");
  channel_attribute id := Ok id
}.

Definition power_on (replies : list (string * string))
           (numbers : list (string * list Q)) : world bench :=
  mkWorld (mkBench replies numbers [] []) [] [] [] [].

(** The messages proper among the events: what was written, queries and
    drains left out. *)
Definition writes (evs : list event) : list event := filter is_write evs.

(** The channel a sweep variable would take its mode from under the two
    readings of the scan: the first channel in [channels] whose function
    is the designator, or the last one. *)
Section ScanReadings.

Context {device : Type} {AD : Adapter device}.

Definition function_of (d : device) (ch : string) : string :=
  adapter_ask (":PAGE:CHAN:" ++ ch ++ ":FUNC?") d.

Definition mode_of (d : device) (ch : string) : string :=
  adapter_ask (":PAGE:CHAN:" ++ ch ++ ":MODE?") d.

Definition plays (d : device) (role ch : string) : bool :=
  (function_of d ch =? role)%string.

Definition mode_of_first (d : device) (role : string) : result string :=
  match find (plays d role) channels with
  | Some ch => Ok (mode_of d ch)
  | None => Raise UnboundLocalError
  end.

Definition mode_of_last (d : device) (role : string) : result string :=
  match find (plays d role) (rev channels) with
  | Some ch => Ok (mode_of d ch)
  | None => Raise UnboundLocalError
  end.

End ScanReadings.

(** A name is legal when it has at most six characters and starts with a
    letter. *)
Definition legal_name (name : string) : Prop :=
  (String.length name <= 6)%nat /\
  exists c rest, name = String c rest /\ isalpha c = true.

(** From [w] to [w'] nothing was written: the instrument, the log and the
    attributes stay, and the trace grows by queries only. *)
Definition only_asked {device : Type} (w w' : world device) : Prop :=
  dev w' = dev w /\ logs w' = logs w /\ attrs w' = attrs w /\
  files w' = files w /\
  exists evs, trace w' = (trace w ++ evs)%list /\ writes evs = [].

(** From [w] to [w'] no message was written: the trace grew by queries
    and drains only (a drain may change the instrument). *)
Definition nothing_written {device : Type} (w w' : world device) : Prop :=
  exists evs, trace w' = (trace w ++ evs)%list /\ writes evs = [].

(** Benches for the examples.  [two_primaries]: SMU1 and SMU2 both have
    the function VAR1, SMU1 in mode V and SMU2 in mode I. *)
Definition two_primaries : world bench :=
  power_on [(":PAGE:CHAN:SMU1:FUNC?", "VAR1"); (":PAGE:CHAN:SMU1:MODE?", "V");
            (":PAGE:CHAN:SMU2:FUNC?", "VAR1"); (":PAGE:CHAN:SMU2:MODE?", "I")]
           [].

(** [sweep_bench]: the analyzer sweeps; SMU1 is the primary sweep source
    in mode V, SMU3 a constant source in mode V, VSU1 the secondary sweep
    source. *)
Definition sweep_bench : world bench :=
  power_on [(":PAGE:CHAN:MODE?", "SWE");
            (":PAGE:CHAN:SMU1:FUNC?", "VAR1"); (":PAGE:CHAN:SMU1:MODE?", "V");
            (":PAGE:CHAN:SMU3:FUNC?", "CONS"); (":PAGE:CHAN:SMU3:MODE?", "V");
            (":PAGE:CHAN:VSU1:FUNC?", "VAR2"); (":PAGE:CHAN:VSU1:MODE?", "V")]
           [].

(** [sampling_bench]: the analyzer samples. *)
Definition sampling_bench : world bench :=
  power_on [(":PAGE:CHAN:MODE?", "SAMP")] [].

(** [measured_bench]: a finished measurement with IC and VB on the
    display list and three points each. *)
Definition measured_bench : world bench :=
  power_on [("*OPC?", "1"); (":PAGE:DISP:LIST?", "IC,VB");
            (":PAGE:DISP:DVAR?", "")]
           [(":DATA? 'IC'", [1%Q; 2%Q; 3%Q]);
            (":DATA? 'VB'", [4%Q; 5%Q; 6%Q])].

(** The slot names a configuration document may use. *)
Definition slots : list string :=
  ["SMU1"; "SMU2"; "SMU3"; "SMU4"; "VMU1"; "VMU2"; "VSU1"; "VSU2";
   "VAR1"; "VAR2"; "VARD"].

(** [unknown_slot_document]: settings for SMU1, then for a slot SMU9 that
    the instrument does not have. *)
Definition unknown_slot_document : document :=
  [("SMU1", [("channel_function", VStr "VAR1"); ("channel_mode", VStr "V")]);
   ("SMU9", [("channel_mode", VStr "V")])].

(** [c in s] for a character. *)
Fixpoint contains_char (c : ascii) (s : string) : bool :=
  match s with
  | EmptyString => false
  | String x r => Ascii.eqb x c || contains_char c r
  end.

(** The rows of the table with the given columns, each of [m] entries:
    row [i] holds entry [i] of every column, in the order of the
    columns. *)
Definition table_rows (cols : list (list Q)) (m : nat) : list (list Q) :=
  map (fun i => map (fun col => nth i col 0%Q) cols) (seq 0 m).

(** The numbers the instrument gives for a saved variable. *)
Definition data_column {device : Type} {AD : Adapter device}
           (d : device) (name : string) : list Q :=
  adapter_values (":DATA? '" ++ name ++ "'") d.

(** The queries one scan of a sweep variable sends: for every channel the
    query for its function and, when the channel plays the role, the query
    for its mode. *)
Definition scan_queries {device : Type} {AD : Adapter device}
           (d : device) (role : string) (chs : list string) : list event :=
  flat_map (fun ch =>
              Ask (":PAGE:CHAN:" ++ ch ++ ":FUNC?") ::
              (if plays d role ch
               then [Ask (":PAGE:CHAN:" ++ ch ++ ":MODE?")] else []))
           chs.

(** [common_bench]: SMU1 has the function VAR1 and is in mode COMM. *)
Definition common_bench : world bench :=
  power_on [(":PAGE:CHAN:SMU1:FUNC?", "VAR1");
            (":PAGE:CHAN:SMU1:MODE?", "COMM")] [].



(** * Properties *)

(** ** The two ranges *)

(** C5: the range for a value in mode V is the range for a compliance in
    mode I, both [-200, 200]; the range for a value in mode I is the range
    for a compliance in mode V, both [-1, 1]; on any other mode both
    functions fail with the configuration error (ValueError). *)
Theorem valid_iv_compliance_inverse :
  valid_iv "V" = Ok [-200; 200] /\
  valid_compliance "I" = valid_iv "V" /\
  valid_iv "I" = Ok [-1; 1] /\
  valid_compliance "V" = valid_iv "I" /\
  forall m : string, m <> "V" -> m <> "I" ->
    valid_iv m = Raise ValueError /\ valid_compliance m = Raise ValueError.
Proof.
  repeat split; try reflexivity.
  - unfold valid_iv.
    destruct (String.eqb_spec m "V"); [contradiction|].
    destruct (String.eqb_spec m "I"); [contradiction|]. reflexivity.
  - unfold valid_compliance.
    destruct (String.eqb_spec m "I"); [contradiction|].
    destruct (String.eqb_spec m "V"); [contradiction|]. reflexivity.
Qed.

(** ** Signal names *)

(** C6: on the empty name the check reads [name[0]] and raises; the name
    is neither passed on nor replaced. *)
Theorem check_current_voltage_name_empty :
  forall (device : Type) (w : world device),
    check_current_voltage_name "" w = (Raise IndexError, w).
Proof.
  intros device w. reflexivity.
Qed.

Lemma substring_prefix_length :
  forall (n : nat) (s : string), (String.length (substring 0 n s) <= n)%nat.
Proof.
  induction n as [|n IH]; intros [|c s]; simpl; try lia.
  specialize (IH s). lia.
Qed.

(** Every name but the empty one comes out legal: unchanged when it was
    legal, else as the filler letter and its first five characters, with
    the renaming logged. *)
Lemma check_current_voltage_name_nonempty :
  forall (device : Type) (name : string) (w : world device),
    name <> "" ->
    exists out w',
      check_current_voltage_name name w = (Ok out, w') /\
      legal_name out /\
      dev w' = dev w /\ trace w' = trace w /\
      ((legal_name name /\ out = name /\ logs w' = logs w) \/
       (~ legal_name name /\ out = "a" ++ substring 0 5 name /\
        logs w' = app (logs w)
                      ["Renaming " ++ name ++ " to " ++ out ++ "..."])).
Proof.
  intros device name w Hne.
  unfold check_current_voltage_name.
  assert (Hfill : legal_name ("a" ++ substring 0 5 name)).
  { split.
    - simpl. pose proof (substring_prefix_length 5 name). lia.
    - exists "a"%char, (substring 0 5 name). split; reflexivity. }
  destruct (Nat.ltb_spec 6 (String.length name)) as [Hlong|Hshort].
  - eexists; eexists; split; [reflexivity|].
    split; [exact Hfill|]. repeat split.
    right. repeat split. intros [Hlen _]. lia.
  - destruct name as [|c rest]; [congruence|].
    destruct (isalpha c) eqn:Hc.
    + exists (String c rest), w. split; [reflexivity|].
      assert (Hleg : legal_name (String c rest)).
      { split; [exact Hshort|]. exists c, rest. split; [reflexivity|exact Hc]. }
      split; [exact Hleg|]. split; [reflexivity|]. split; [reflexivity|].
      left. split; [exact Hleg|]. split; reflexivity.
    + eexists; eexists; split; [reflexivity|].
      split; [exact Hfill|]. repeat split.
      right. repeat split.
      intros [_ (c' & rest' & Heq & Hc')]. inversion Heq; subst. congruence.
Qed.

(** ** The mode of a sweep variable *)

Lemma find_snoc :
  forall (A : Type) (f : A -> bool) (l : list A) (x : A),
    find f (l ++ [x])%list =
    match find f l with
    | Some y => Some y
    | None => if f x then Some x else None
    end.
Proof.
  intros A f l x. induction l as [|a l IH]; simpl.
  - reflexivity.
  - destruct (f a); [reflexivity|exact IH].
Qed.

Lemma only_asked_refl :
  forall (device : Type) (w : world device), only_asked w w.
Proof.
  intros device w. repeat split. exists []. split; [|reflexivity].
  symmetry. apply app_nil_r.
Qed.

Lemma only_asked_trans :
  forall (device : Type) (w1 w2 w3 : world device),
    only_asked w1 w2 -> only_asked w2 w3 -> only_asked w1 w3.
Proof.
  intros device w1 w2 w3 (Hd & Hl & Ha & Hf & e1 & Ht & He)
         (Hd' & Hl' & Ha' & Hf' & e2 & Ht' & He').
  repeat split; try congruence.
  exists (e1 ++ e2)%list. split.
  - rewrite Ht', Ht. symmetry. apply app_assoc.
  - unfold writes in *. rewrite filter_app, He, He'. reflexivity.
Qed.

Lemma ask_only_asked :
  forall (device : Type) (AD : Adapter device) (q : string) (w : world device),
    only_asked w (snd (ask q w)).
Proof.
  intros device AD q w. repeat split. exists [Ask q]. split; reflexivity.
Qed.

(** After the scan the local [ch_mode] holds the mode of the last channel
    of the list that plays the role, and is as it was when none does. *)
Lemma scan_last :
  forall (device : Type) (AD : Adapter device) (role : string)
         (chs : list string) (ch_mode : option string) (w : world device),
    exists w',
      VARX.scan role chs ch_mode w =
      (Ok match find (plays (dev w) role) (rev chs) with
          | Some ch => Some (mode_of (dev w) ch)
          | None => ch_mode
          end, w') /\
      only_asked w w'.
Proof.
  intros device AD role chs.
  induction chs as [|ch rest IH]; intros ch_mode w.
  - exists w. split; [reflexivity|apply only_asked_refl].
  - simpl rev. rewrite find_snoc.
    cbn [VARX.scan]. unfold bind at 1. cbn [ask].
    fold (function_of (dev w) ch).
    set (w1 := mkWorld _ _ _ _ _).
    assert (H1 : only_asked w w1) by apply (ask_only_asked _ _ _ w).
    unfold plays at 2.
    destruct (function_of (dev w) ch =? role)%string eqn:Hf.
    + unfold bind at 1. cbn [ask]. fold (mode_of (dev w) ch).
      set (w2 := mkWorld _ _ _ _ _).
      assert (H2 : only_asked w1 w2) by apply (ask_only_asked _ _ _ w1).
      destruct (IH (Some (mode_of (dev w) ch)) w2) as (w' & Hscan & H3).
      exists w'. split.
      * etransitivity; [exact Hscan|]. simpl.
        destruct (find (plays (dev w) role) (rev rest)); reflexivity.
      * eauto using only_asked_trans.
    + destruct (IH ch_mode w1) as (w' & Hscan & H3).
      exists w'. split.
      * etransitivity; [exact Hscan|]. simpl.
        destruct (find (plays (dev w) role) (rev rest)); reflexivity.
      * eauto using only_asked_trans.
Qed.

(** C1, as the code has it: for each of VAR1, VAR2 and VARD, reading
    [channel_mode] asks the six channels SMU1..SMU4, VSU1, VSU2 in this
    order and returns the mode of the last of them whose function is the
    sweep variable's designator; when no channel has that function the
    local variable is still unbound and the read fails
    (UnboundLocalError).  Only queries are sent. *)
Theorem channel_mode_last_match :
  forall (device : Type) (AD : Adapter device) (w : world device),
    (forall role : string,
        In role [VAR1.id; VAR2.id] ->
        fst (VARX.channel_mode role w) = mode_of_last (dev w) role /\
        only_asked w (snd (VARX.channel_mode role w))) /\
    fst (VARD.channel_mode w) = mode_of_last (dev w) VARD.id /\
    only_asked w (snd (VARD.channel_mode w)).
Proof.
  intros device AD w.
  assert (Hscan : forall role,
    fst (bind (VARX.scan role channels None)
              (fun ch_mode => match ch_mode with
                              | Some m => ret m
                              | None => raise UnboundLocalError
                              end) w) = mode_of_last (dev w) role /\
    only_asked w (snd (bind (VARX.scan role channels None)
              (fun ch_mode => match ch_mode with
                              | Some m => ret m
                              | None => raise UnboundLocalError
                              end) w))).
  { intros role.
    destruct (scan_last device AD role channels None w) as (w' & Hs & Ho).
    unfold bind. rewrite Hs. unfold mode_of_last.
    destruct (find (plays (dev w) role) (rev channels)); split;
      simpl; auto. }
  split.
  - intros role _. apply Hscan.
  - apply (Hscan "VARD").
Qed.

(** C1 as stated fails: with SMU1 and SMU2 both given the function VAR1,
    the first channel in scan order is SMU1, in mode V, and reading the
    mode of VAR1 returns I, the mode of SMU2. *)
Lemma channel_mode_not_first_match :
  mode_of_first (dev two_primaries) VAR1.id = Ok "V" /\
  fst (VARX.channel_mode VAR1.id two_primaries) = Ok "I" /\
  fst (VARX.channel_mode VAR1.id two_primaries)
    <> mode_of_first (dev two_primaries) VAR1.id.
Proof.
  split; [reflexivity|]. split; [reflexivity|].
  vm_compute. discriminate.
Qed.

(** ** The step of a sweep *)

(** [2 * valid_iv(mode)] is the list twice over, so its least and greatest
    elements are those of the list itself. *)
Lemma doubled_range_is_the_range :
  forall mode values,
    valid_iv mode = Ok values ->
    py_mul_list 2 values = (values ++ values)%list /\
    py_min (py_mul_list 2 values) = py_min values /\
    py_max (py_mul_list 2 values) = py_max values.
Proof.
  intros mode values H. unfold valid_iv in H.
  destruct (mode =? "V")%string;
    [|destruct (mode =? "I")%string; [|discriminate]];
    inversion H; subst; repeat split.
Qed.

Lemma strict_range_doubled :
  forall mode values value,
    valid_iv mode = Ok values ->
    strict_range value (py_mul_list 2 values) = strict_range value values.
Proof.
  intros mode values value H.
  destruct (doubled_range_is_the_range mode values H) as (_ & Hmin & Hmax).
  unfold strict_range. rewrite Hmin, Hmax. reflexivity.
Qed.

Lemma strict_range_returns_value :
  forall value values v,
    strict_range value values = Ok v -> v = value.
Proof.
  intros value values v. unfold strict_range.
  destruct (num_of value); [|discriminate].
  destruct (py_min values); [|discriminate].
  destruct (py_max values); [|discriminate].
  destruct (_ && _); [|discriminate].
  intros H. inversion H. reflexivity.
Qed.

(** Whatever the mode of the sweep variable, [step] passes exactly the
    values that [start] and [stop] pass: the range itself, not twice it. *)
Lemma step_set_range :
  forall (device : Type) (AD : Adapter device) (R : Runtime)
         (self_id : string) (value : pyvalue) (w : world device)
         (mode : string) (values : list Z),
    fst (VARX.channel_mode self_id w) = Ok mode ->
    valid_iv mode = Ok values ->
    (fst (VARX.step_set self_id value w) = Ok tt <->
     strict_range value values = Ok value).
Proof.
  intros device AD R self_id value w mode values Hmode Hvalid.
  unfold VARX.step_set, bind at 1.
  destruct (VARX.channel_mode self_id w) as [r w1]. simpl in Hmode. subst r.
  unfold bind at 1, lift at 1. rewrite Hvalid.
  unfold bind at 1, lift at 1.
  rewrite (strict_range_doubled mode values value Hvalid).
  destruct (strict_range value values) as [v|e] eqn:Hr.
  - apply strict_range_returns_value in Hr. subst v.
    unfold bind, write, check_errors, ret. simpl.
    destruct (adapter_check_errors _). simpl. split; reflexivity.
  - simpl. split; discriminate.
Qed.

(** C2 on the code: with SMU1 as VAR1 in mode V, the step 300, which lies
    within [-400, 400], is refused with a validation error and nothing is
    written; the step 200 is sent.  The list [2 * [-200, 200]] has the
    bounds -200 and 200. *)
Theorem step_set_refuses_doubled_span :
  fst (VARX.channel_mode VAR1.id sweep_bench) = Ok "V" /\
  fst (VARX.step_set VAR1.id (VInt 300) sweep_bench) = Raise ValueError /\
  writes (trace (snd (VARX.step_set VAR1.id (VInt 300) sweep_bench))) = [] /\
  fst (VARX.step_set VAR1.id (VInt 200) sweep_bench) = Ok tt.
Proof.
  repeat split; vm_compute; reflexivity.
Qed.

(** ** Constant value and compliance *)

Lemma nothing_written_refl :
  forall (device : Type) (w : world device), nothing_written w w.
Proof.
  intros device w. exists []. split; [|reflexivity].
  symmetry. apply app_nil_r.
Qed.

Lemma nothing_written_trans :
  forall (device : Type) (w1 w2 w3 : world device),
    nothing_written w1 w2 -> nothing_written w2 w3 -> nothing_written w1 w3.
Proof.
  intros device w1 w2 w3 (e1 & Ht & He) (e2 & Ht' & He').
  exists (e1 ++ e2)%list. split.
  - rewrite Ht', Ht. symmetry. apply app_assoc.
  - unfold writes in *. rewrite filter_app, He, He'. reflexivity.
Qed.

(** Reading a property returns the reply to its query and writes
    nothing. *)
Lemma control_get_reads :
  forall (device : Type) (AD : Adapter device) (command : string)
         (flag : bool) (w : world device),
    fst (control_get command flag w) = Ok (adapter_ask command (dev w)) /\
    nothing_written w (snd (control_get command flag w)).
Proof.
  intros device AD command flag w.
  destruct flag; cbv [control_get bind ask drain_when check_errors ret];
    cbn [dev trace logs attrs files].
  - destruct (adapter_check_errors (dev w)) as [errors d]. simpl.
    split; [reflexivity|].
    exists [Ask command; CheckErrors]. split; [|reflexivity].
    rewrite <- app_assoc. reflexivity.
  - split; [reflexivity|]. exists [Ask command]. split; reflexivity.
Qed.

(** The condition of [__validate_cons] and [__validate_compl]: it holds
    when the mode read is not COMM and the function read after it is
    CONS; evaluating it writes nothing. *)
Lemma constant_ready_reads :
  forall (device : Type) (AD : Adapter device) (ch : Channel)
         (w w1 w2 : world device) (mode func : string),
    AgilentMeasurementChannel.channel_mode ch w = (Ok mode, w1) ->
    AgilentMeasurementChannel.channel_function ch w1 = (Ok func, w2) ->
    exists w',
      SMU.constant_ready ch w =
      (Ok (negb (mode =? "COMM")%string && (func =? "CONS")%string), w') /\
      nothing_written w w'.
Proof.
  intros device AD ch w w1 w2 mode func Hmode Hfunc.
  assert (N1 : nothing_written w w1).
  { pose proof (control_get_reads device AD
      (":PAGE:CHAN:" ++ id ch ++ ":MODE?") true w) as [_ N].
    unfold AgilentMeasurementChannel.channel_mode in Hmode.
    rewrite Hmode in N. exact N. }
  assert (N2 : nothing_written w1 w2).
  { pose proof (control_get_reads device AD
      (":PAGE:CHAN:" ++ id ch ++ ":FUNC?") true w1) as [_ N].
    unfold AgilentMeasurementChannel.channel_function in Hfunc.
    rewrite Hfunc in N. exact N. }
  unfold SMU.constant_ready, bind. rewrite Hmode.
  destruct (mode =? "COMM")%string; simpl.
  - exists w1. split; [reflexivity|exact N1].
  - rewrite Hfunc. exists w2. split; [reflexivity|].
    eapply nothing_written_trans; eassumption.
Qed.

(** C3, as the code has it: on a source-measure channel whose mode reads
    COMM or whose function reads something other than CONS, setting
    [constant_value] or [compliance] fails with the precondition error
    (ValueError) and nothing has been written to the instrument, only
    the queries for mode and function sent. *)
Theorem smu_constant_setters_guarded :
  forall (device : Type) (AD : Adapter device) (R : Runtime)
         (slot : string) (value : pyvalue)
         (w w1 w2 : world device) (mode func : string),
    AgilentMeasurementChannel.channel_mode (SMU.new slot) w = (Ok mode, w1) ->
    AgilentMeasurementChannel.channel_function (SMU.new slot) w1
      = (Ok func, w2) ->
    mode = "COMM" \/ func <> "CONS" ->
    (exists w',
        SMU.constant_value_set (SMU.new slot) value w = (Raise ValueError, w')
        /\ nothing_written w w') /\
    (exists w',
        SMU.compliance_set (SMU.new slot) value w = (Raise ValueError, w')
        /\ nothing_written w w').
Proof.
  intros device AD R slot value w w1 w2 mode func Hmode Hfunc Hbad.
  destruct (constant_ready_reads device AD (SMU.new slot) w w1 w2 mode func
              Hmode Hfunc) as (w' & Hready & N).
  assert (Hfalse : negb (mode =? "COMM")%string && (func =? "CONS")%string
                   = false).
  { destruct Hbad as [Hm|Hf].
    - subst mode. reflexivity.
    - apply String.eqb_neq in Hf. rewrite Hf. apply andb_false_r. }
  rewrite Hfalse in Hready.
  split; exists w'; (split; [|exact N]).
  - unfold SMU.constant_value_set, SMU.validate_cons, bind.
    rewrite Hready. reflexivity.
  - unfold SMU.compliance_set, SMU.validate_compl, bind.
    rewrite Hready. reflexivity.
Qed.

(** C3 as stated fails on a voltage-source channel: VSU1 has the function
    VAR2, not CONS, and setting its [constant_value] succeeds and writes
    the value to the instrument. *)
Lemma vsu_constant_value_unguarded :
  fst (AgilentMeasurementChannel.channel_function Agilent4156.vsu1 sweep_bench)
    = Ok "VAR2" /\
  fst (VSU.constant_value_set Agilent4156.vsu1 (VInt 0) sweep_bench) = Ok tt /\
  writes (trace (snd (VSU.constant_value_set Agilent4156.vsu1 (VInt 0)
                                             sweep_bench)))
    = [Write ":PAGE:MEAS:CONS:VSU1 0"].
Proof.
  repeat split; vm_compute; reflexivity.
Qed.

(** ** The mode of a channel *)

Lemma py_eq_string :
  forall (v : pyvalue) (t : string), py_eq v (VStr t) = true <-> v = VStr t.
Proof.
  intros v t. destruct v as [z|q|s]; simpl; try (split; discriminate).
  rewrite String.eqb_eq. split; [intros ->; reflexivity|].
  intros H. inversion H. reflexivity.
Qed.

Lemma py_in_strings :
  forall (v : pyvalue) (l : list string),
    py_in v (map VStr l) = true <-> In v (map VStr l).
Proof.
  intros v l. unfold py_in. induction l as [|t l IH]; simpl.
  - split; [discriminate|contradiction].
  - rewrite orb_true_iff, IH, py_eq_string.
    split; intros [H|H]; auto.
Qed.

(** Setting the mode either refuses the value before anything is sent, or
    writes it and succeeds, as the legal set of the channel decides. *)
Lemma channel_mode_set_outcome :
  forall (device : Type) (AD : Adapter device) (R : Runtime)
         (ch : Channel) (value : pyvalue) (w : world device),
    (py_in value (AgilentMeasurementChannel.channel_mode_values (kind ch))
       = true /\
     fst (AgilentMeasurementChannel.channel_mode_set ch value w) = Ok tt /\
     writes (trace (snd (AgilentMeasurementChannel.channel_mode_set ch value w)))
       = (writes (trace w)
            ++ [Write ((":PAGE:CHAN:" ++ id ch ++ ":MODE ") ++ py_str value)])%list)
    \/
    (py_in value (AgilentMeasurementChannel.channel_mode_values (kind ch))
       = false /\
     AgilentMeasurementChannel.channel_mode_set ch value w
       = (Raise ValueError, w)).
Proof.
  intros device AD R ch value w.
  unfold AgilentMeasurementChannel.channel_mode_set, control_set,
    strict_discrete_set.
  destruct (py_in value _) eqn:Hin.
  - left. split; [reflexivity|].
    cbv [bind lift ret percent_s write drain_when check_errors].
    cbn [dev trace logs attrs files].
    destruct (adapter_check_errors _) as [errors d]. cbn [fst snd trace].
    split; [reflexivity|].
    unfold writes. rewrite !filter_app. simpl. rewrite app_nil_r.
    reflexivity.
  - right. split; reflexivity.
Qed.

(** C4, as the code has it: setting a channel's mode fails with the
    validation error (ValueError), before anything is sent, exactly when
    the value is outside the legal set of the channel's kind: V, I, COMM
    for a source-measure channel, V, DVOL for a voltage-sense channel;
    a voltage-source channel has the empty set the class declares, so
    there every value is refused. *)
Theorem channel_mode_set_validation :
  forall (device : Type) (AD : Adapter device) (R : Runtime)
         (ch : Channel) (value : pyvalue) (w : world device),
    let outcome := AgilentMeasurementChannel.channel_mode_set ch value w in
    let legal :=
      match kind ch with
      | SMU_kind => [VStr "V"; VStr "I"; VStr "COMM"]
      | VMU_kind => [VStr "V"; VStr "DVOL"]
      | VSU_kind => []
      end in
    (fst outcome = Raise ValueError <-> ~ In value legal) /\
    (~ In value legal -> outcome = (Raise ValueError, w)) /\
    (In value legal -> fst outcome = Ok tt) /\
    (kind ch = VSU_kind -> outcome = (Raise ValueError, w)).
Proof.
  intros device AD R ch value w outcome legal.
  assert (Hlegal : AgilentMeasurementChannel.channel_mode_values (kind ch)
                   = legal).
  { unfold legal. destruct (kind ch); reflexivity. }
  assert (Hin : py_in value legal = true <-> In value legal).
  { unfold legal.
    destruct (kind ch);
      [apply (py_in_strings value ["V"; "I"; "COMM"])
      |apply (py_in_strings value ["V"; "DVOL"])
      |apply (py_in_strings value [])]. }
  destruct (channel_mode_set_outcome device AD R ch value w)
    as [(Hp & Hok & _)|(Hp & Hfail)];
    rewrite Hlegal in Hp; subst outcome.
  - apply Hin in Hp.
    repeat split.
    + intros H. rewrite Hok in H. discriminate.
    + intros H. contradiction.
    + intros H. contradiction.
    + exact (fun _ => Hok).
    + intros Hk. exfalso. unfold legal in Hp. rewrite Hk in Hp. exact Hp.
  - assert (Hout : ~ In value legal).
    { intros H. apply Hin in H. congruence. }
    repeat split.
    + intros _. exact Hout.
    + intros _. rewrite Hfail. reflexivity.
    + intros _. exact Hfail.
    + intros H. contradiction.
    + intros _. exact Hfail.
Qed.

(** C4 as stated fails on a voltage-source channel: the mode V is refused
    on VSU1 with the validation error and nothing is sent. *)
Lemma vsu_channel_mode_refused :
  AgilentMeasurementChannel.channel_mode_set Agilent4156.vsu1 (VStr "V")
                                             sweep_bench
  = (Raise ValueError, sweep_bench).
Proof.
  reflexivity.
Qed.

(** ** Saving variables *)

Lemma write_each_trace :
  forall (device : Type) (AD : Adapter device) (R : Runtime)
         (prefix : string) (names : list pyvalue) (w : world device),
    fst (Agilent4156.write_each prefix names w) = Ok tt /\
    trace (snd (Agilent4156.write_each prefix names w)) =
    (trace w ++
       map (fun name => Write (prefix ++ "'" ++ py_str name ++ "'")) names)%list.
Proof.
  intros device AD R prefix names.
  induction names as [|name rest IH]; intros w.
  - simpl. split; [reflexivity|]. symmetry. apply app_nil_r.
  - cbn [Agilent4156.write_each]. unfold bind at 1. cbn [write].
    destruct (IH (mkWorld
                    (adapter_write (prefix ++ "'" ++ py_str name ++ "'") (dev w))
                    (trace w ++ [Write (prefix ++ "'" ++ py_str name ++ "'")])
                    (logs w) (attrs w) (files w))) as [Hok Htrace].
    split; [exact Hok|].
    etransitivity; [exact Htrace|].
    cbn [trace map]. rewrite <- app_assoc. reflexivity.
Qed.

Lemma save_list :
  forall (device : Type) (AD : Adapter device) (R : Runtime)
         (names : list pyvalue) (w : world device),
    Agilent4156.save (TraceList names) w =
    (if (8 <? List.length names)%nat
     then raise RuntimeError
     else Agilent4156.write_each ":PAGE:DISP:LIST " names)
      (snd (write ":PAGE:DISP:MODE LIST" w)) /\
    Agilent4156.save_var (TraceList names) w =
    (if (2 <? List.length names)%nat
     then raise RuntimeError
     else Agilent4156.write_each ":PAGE:DISP:DVAR " names)
      (snd (write ":PAGE:DISP:MODE LIST" w)).
Proof.
  intros device AD R names w. split; reflexivity.
Qed.

(** C7: [save] with more than 8 names fails with the capacity error
    (RuntimeError) after the one write that selects the list display, and
    with exactly 8 names writes all of them in the order given; [save_var]
    does the same with the limit 2 and the variable list. *)
Theorem save_capacity :
  forall (device : Type) (AD : Adapter device) (R : Runtime)
         (names : list pyvalue) (w : world device),
    ((8 < List.length names)%nat ->
     fst (Agilent4156.save (TraceList names) w) = Raise RuntimeError /\
     trace (snd (Agilent4156.save (TraceList names) w)) =
     (trace w ++ [Write ":PAGE:DISP:MODE LIST"])%list) /\
    (List.length names = 8%nat ->
     fst (Agilent4156.save (TraceList names) w) = Ok tt /\
     trace (snd (Agilent4156.save (TraceList names) w)) =
     (trace w ++ Write ":PAGE:DISP:MODE LIST" ::
        map (fun name => Write (":PAGE:DISP:LIST '" ++ py_str name ++ "'"))
            names)%list) /\
    ((2 < List.length names)%nat ->
     fst (Agilent4156.save_var (TraceList names) w) = Raise RuntimeError /\
     trace (snd (Agilent4156.save_var (TraceList names) w)) =
     (trace w ++ [Write ":PAGE:DISP:MODE LIST"])%list) /\
    (List.length names = 2%nat ->
     fst (Agilent4156.save_var (TraceList names) w) = Ok tt /\
     trace (snd (Agilent4156.save_var (TraceList names) w)) =
     (trace w ++ Write ":PAGE:DISP:MODE LIST" ::
        map (fun name => Write (":PAGE:DISP:DVAR '" ++ py_str name ++ "'"))
            names)%list).
Proof.
  intros device AD R names w.
  destruct (save_list device AD R names w) as [Hsave Hvar].
  rewrite Hsave, Hvar. clear Hsave Hvar.
  set (w1 := snd (write ":PAGE:DISP:MODE LIST" w)).
  assert (Hlist : forall prefix,
    fst (Agilent4156.write_each prefix names w1) = Ok tt /\
    trace (snd (Agilent4156.write_each prefix names w1)) =
    (trace w ++ Write ":PAGE:DISP:MODE LIST" ::
       map (fun name => Write (prefix ++ "'" ++ py_str name ++ "'"))
           names)%list).
  { intros prefix.
    destruct (write_each_trace device AD R prefix names w1) as [Hok Ht].
    split; [exact Hok|]. rewrite Ht. unfold w1. cbn [write snd trace].
    rewrite <- app_assoc. reflexivity. }
  split; [|split; [|split]]; intros Hlen.
  - apply Nat.ltb_lt in Hlen. rewrite Hlen. split; reflexivity.
  - assert (Hle : (8 <? List.length names)%nat = false)
      by (apply Nat.ltb_ge; lia).
    rewrite Hle. apply (Hlist ":PAGE:DISP:LIST ").
  - apply Nat.ltb_lt in Hlen. rewrite Hlen. split; reflexivity.
  - assert (Hle : (2 <? List.length names)%nat = false)
      by (apply Nat.ltb_ge; lia).
    rewrite Hle. apply (Hlist ":PAGE:DISP:DVAR ").
Qed.

(** ** Measuring *)

(** C8: when the operating mode reads SAMPLING, [measure(period=100,
    points=50)] writes the period, then the point count, then the single
    measurement with the wait for completion, and nothing else; when it
    reads SWEEP it writes the single measurement only.  Reading the mode
    writes nothing. *)
Theorem measure_commands :
  forall (device : Type) (AD : Adapter device) (R : Runtime)
         (w : world device),
    nothing_written w (snd (analyzer_mode w)) /\
    (fst (analyzer_mode w) = Ok "SAMPLING" ->
     fst (Agilent4156.measure (VInt 100) (VInt 50) w) = Ok tt /\
     trace (snd (Agilent4156.measure (VInt 100) (VInt 50) w)) =
     (trace (snd (analyzer_mode w)) ++
        [Write ":PAGE:MEAS:SAMP:PER 100";
         Write ":PAGE:MEAS:SAMP:POIN 50";
         Write ":PAGE:SCON:MEAS:SING; *OPC?"])%list) /\
    (fst (analyzer_mode w) = Ok "SWEEP" ->
     fst (Agilent4156.measure (VInt 100) (VInt 50) w) = Ok tt /\
     trace (snd (Agilent4156.measure (VInt 100) (VInt 50) w)) =
     (trace (snd (analyzer_mode w)) ++
        [Write ":PAGE:SCON:MEAS:SING; *OPC?"])%list).
Proof.
  intros device AD R w.
  split.
  - unfold analyzer_mode, bind at 1.
    pose proof (control_get_reads device AD ":PAGE:CHAN:MODE?" true w)
      as [Hr N].
    destruct (control_get ":PAGE:CHAN:MODE?" true w) as [r w1].
    simpl in Hr. subst r. exact N.
  - assert (Hsteps : Agilent4156.measure (VInt 100) (VInt 50) w =
      match analyzer_mode w with
      | (Ok mode, w1) =>
          (if (mode =? "SWEEP")%string
           then write ":PAGE:SCON:MEAS:SING; *OPC?"
           else (write ":PAGE:MEAS:SAMP:PER 100" ;;;
                 write ":PAGE:MEAS:SAMP:POIN 50" ;;;
                 write ":PAGE:SCON:MEAS:SING; *OPC?")) w1
      | (Raise e, w1) => (Raise e, w1)
      end) by reflexivity.
    rewrite Hsteps. clear Hsteps.
    destruct (analyzer_mode w) as [r w1]. cbn [fst snd].
    split; intros ->.
    + cbn. split; [reflexivity|]. rewrite <- ?app_assoc. reflexivity.
    + cbn. split; reflexivity.
Qed.

(** ** Fetching the data *)

(** The saved variables are what the two list queries answer, split at
    the commas, empty names dropped; asking changes nothing else. *)
Lemma data_variables_value :
  forall (device : Type) (AD : Adapter device) (w : world device),
    fst (Agilent4156.data_variables w) =
    Ok (filter nonempty
          (split_comma (adapter_ask ":PAGE:DISP:LIST?" (dev w)) ++
           split_comma (adapter_ask ":PAGE:DISP:DVAR?" (dev w)))%list) /\
    only_asked w (snd (Agilent4156.data_variables w)).
Proof.
  intros device AD w. split; [reflexivity|].
  repeat split.
  exists [Ask ":PAGE:DISP:LIST?"; Ask ":PAGE:DISP:DVAR?"].
  split; [|reflexivity]. cbn. rewrite <- app_assoc. reflexivity.
Qed.

(** C9: with the operation complete, the saved variables IC and VB, and
    the instrument answering 1, 2, 3 for IC and 4, 5, 6 for VB, [get_data]
    returns the table with the columns IC, VB in this order and the rows
    (1, 4), (2, 5), (3, 6). *)
Theorem get_data_two_columns :
  forall (device : Type) (AD : Adapter device) (R : Runtime)
         (w : world device) (done : Z),
    py_int (adapter_ask "*OPC?" (dev w)) = Ok done ->
    done <> 0 ->
    fst (Agilent4156.data_variables w) = Ok ["IC"; "VB"] ->
    adapter_values ":DATA? 'IC'" (adapter_write ":FORM:DATA ASC" (dev w))
      = [1%Q; 2%Q; 3%Q] ->
    adapter_values ":DATA? 'VB'" (adapter_write ":FORM:DATA ASC" (dev w))
      = [4%Q; 5%Q; 6%Q] ->
    fst (Agilent4156.get_data None w) =
    Ok (mkDataFrame ["IC"; "VB"]
          [[1%Q; 4%Q]; [2%Q; 5%Q]; [3%Q; 6%Q]]).
Proof.
  intros device AD R w done Hopc Hdone Hvars HIC HVB.
  destruct (data_variables_value device AD w) as [Hv _].
  rewrite Hv in Hvars. injection Hvars as Hvars.
  apply Z.eqb_neq in Hdone.
  cbv [Agilent4156.get_data Agilent4156.data_variables bind ask lift ret
       write values].
  cbn [dev trace logs attrs files].
  rewrite Hopc, Hdone. cbn [dev trace logs attrs files]. rewrite Hvars.
  cbn [Agilent4156.fetch]. cbv [bind values lift ret].
  cbn [dev Nat.eqb append].
  rewrite HIC, HVB. reflexivity.
Qed.

(** ** Configuring from a document *)

Lemma obj_dict_slots : map fst Agilent4156.obj_dict = slots.
Proof. reflexivity. Qed.

Lemma dict_get_unknown :
  forall (A : Type) (d : list (string * A)) (key : string),
    ~ In key (map fst d) -> dict_get d key = None.
Proof.
  intros A d key. induction d as [|[k v] r IH]; intros Hout; simpl.
  - reflexivity.
  - destruct (String.eqb_spec k key) as [E|E].
    + exfalso. apply Hout. left. exact E.
    + apply IH. intros H. apply Hout. right. exact H.
Qed.

(** The first loop stops at the first unknown slot, whatever it has
    collected. *)
Lemma translate_unknown :
  forall (items : document)
         (acc : list (instrument_object * settings))
         (key : string) (setup : settings),
    In (key, setup) items ->
    ~ In key slots ->
    Agilent4156.translate items acc = Raise KeyError.
Proof.
  intros items. induction items as [|[k v] rest IH];
    intros acc key setup Hin Hout.
  - contradiction.
  - cbn [Agilent4156.translate].
    destruct (dict_get Agilent4156.obj_dict k) as [obj|] eqn:Hk;
      [|reflexivity].
    destruct Hin as [Heq|Hin].
    + inversion Heq; subst k v.
      rewrite dict_get_unknown in Hk; [discriminate|].
      rewrite obj_dict_slots. exact Hout.
    + eapply IH; eassumption.
Qed.

(** Resetting a channel writes its disable command, drains the error
    queue and returns what was drained. *)
Lemma reset_settings_trace :
  forall (device : Type) (AD : Adapter device) (ch : Channel)
         (w : world device),
    exists errors,
      fst (AgilentMeasurementChannel.reset_settings ch w) = Ok errors /\
      trace (snd (AgilentMeasurementChannel.reset_settings ch w)) =
      (trace w ++ [Write (":PAGE:CHAN:" ++ id ch ++ ":DIS"); CheckErrors])%list.
Proof.
  intros device AD ch w.
  cbv [AgilentMeasurementChannel.reset_settings bind write check_errors].
  cbn [dev trace logs attrs files].
  destruct (adapter_check_errors _) as [errors d].
  exists errors. split; [reflexivity|].
  cbn [snd trace]. rewrite <- app_assoc. reflexivity.
Qed.

(** The bulk reset always completes: six disable commands, each followed
    by a drain, in the order SMU1..SMU4, VMU1, VMU2. *)
Lemma disable_all_trace :
  forall (device : Type) (AD : Adapter device) (w : world device),
    fst (Agilent4156.disable_all w) = Ok tt /\
    trace (snd (Agilent4156.disable_all w)) =
    (trace w ++
       [Write ":PAGE:CHAN:SMU1:DIS"; CheckErrors;
        Write ":PAGE:CHAN:SMU2:DIS"; CheckErrors;
        Write ":PAGE:CHAN:SMU3:DIS"; CheckErrors;
        Write ":PAGE:CHAN:SMU4:DIS"; CheckErrors;
        Write ":PAGE:CHAN:VMU1:DIS"; CheckErrors;
        Write ":PAGE:CHAN:VMU2:DIS"; CheckErrors])%list.
Proof.
  intros device AD w.
  cbv [Agilent4156.disable_all AgilentMeasurementChannel.reset_settings
       bind write check_errors ret].
  cbn [dev trace logs attrs files].
  repeat match goal with
         | |- context [adapter_check_errors ?d] =>
             destruct (adapter_check_errors d); cbn [dev trace logs attrs files]
         end.
  split; [reflexivity|].
  cbn [snd trace]. rewrite <- !app_assoc. reflexivity.
Qed.

(** C10: when the document has a slot name that is none of the eleven,
    [configure] fails with the lookup error (KeyError) in the state the
    bulk reset left: the reset has run in full, and not one setting of the
    document, also of the known slots before the unknown one, has been
    applied. *)
Theorem configure_unknown_slot :
  forall (device : Type) (AD : Adapter device) (R : Runtime)
         (instr_settings : document) (w : world device)
         (key : string) (setup : settings),
    In (key, setup) instr_settings ->
    ~ In key slots ->
    fst (Agilent4156.disable_all w) = Ok tt /\
    Agilent4156.configure (Some instr_settings) w =
    (Raise KeyError, snd (Agilent4156.disable_all w)).
Proof.
  intros device AD R instr_settings w key setup Hin Hout.
  destruct (disable_all_trace device AD w) as [Hreset _].
  split; [exact Hreset|].
  unfold Agilent4156.configure, bind at 1.
  destruct (Agilent4156.disable_all w) as [r w1]. cbn [fst snd] in *.
  subst r. unfold bind, lift.
  rewrite (translate_unknown instr_settings [] key setup Hin Hout).
  reflexivity.
Qed.

(** * The theorems at work on the benches *)

(** The range functions on the mode COMM. *)
Lemma valid_iv_compliance_inverse_witness :
  "COMM" <> "V" /\ "COMM" <> "I" /\
  valid_iv "COMM" = Raise ValueError /\
  valid_compliance "COMM" = Raise ValueError.
Proof.
  assert (HV : "COMM" <> "V") by discriminate.
  assert (HI : "COMM" <> "I") by discriminate.
  split; [exact HV|]. split; [exact HI|].
  destruct valid_iv_compliance_inverse as (_ & _ & _ & _ & Hother).
  exact (Hother "COMM" HV HI).
Defined.

(** VAR1 on the bench with two primaries takes the mode of SMU2. *)
Lemma channel_mode_last_match_witness :
  In VAR1.id [VAR1.id; VAR2.id] /\
  fst (VARX.channel_mode VAR1.id two_primaries) = Ok "I".
Proof.
  assert (Hin : In VAR1.id [VAR1.id; VAR2.id]) by (left; reflexivity).
  split; [exact Hin|].
  destruct (channel_mode_last_match bench bench_adapter two_primaries)
    as [Hvarx _].
  destruct (Hvarx VAR1.id Hin) as [Hmode _].
  rewrite Hmode. reflexivity.
Defined.

(** SMU1 on the sweep bench is the primary sweep source, not a constant
    one: both setters refuse. *)
Lemma smu_constant_setters_guarded_witness :
  fst (AgilentMeasurementChannel.channel_function (SMU.new "SMU1")
         (snd (AgilentMeasurementChannel.channel_mode (SMU.new "SMU1")
                 sweep_bench)))
    = Ok "VAR1" /\
  (exists w',
      SMU.constant_value_set (SMU.new "SMU1") (VInt 1) sweep_bench
        = (Raise ValueError, w') /\ nothing_written sweep_bench w') /\
  (exists w',
      SMU.compliance_set (SMU.new "SMU1") (VInt 1) sweep_bench
        = (Raise ValueError, w') /\ nothing_written sweep_bench w').
Proof.
  split; [reflexivity|].
  eapply (smu_constant_setters_guarded bench bench_adapter bench_runtime
            "SMU1" (VInt 1) sweep_bench _ _ "V" "VAR1").
  - reflexivity.
  - reflexivity.
  - right. discriminate.
Defined.

(** The mode I is legal on SMU2 and is sent. *)
Lemma channel_mode_set_validation_witness :
  In (VStr "I") [VStr "V"; VStr "I"; VStr "COMM"] /\
  fst (AgilentMeasurementChannel.channel_mode_set Agilent4156.smu2 (VStr "I")
         sweep_bench) = Ok tt.
Proof.
  assert (Hin : In (VStr "I") [VStr "V"; VStr "I"; VStr "COMM"])
    by (right; left; reflexivity).
  split; [exact Hin|].
  destruct (channel_mode_set_validation bench bench_adapter bench_runtime
              Agilent4156.smu2 (VStr "I") sweep_bench) as (_ & _ & Hok & _).
  exact (Hok Hin).
Defined.

(** Nine names are one too many for [save]; three are one too many for
    [save_var]. *)
Lemma save_capacity_witness :
  (8 < List.length (map VStr ["VC"; "IC"; "VB"; "IB"; "VE"; "IE"; "VS"; "IS";
                              "VX"]))%nat /\
  fst (Agilent4156.save
         (TraceList (map VStr ["VC"; "IC"; "VB"; "IB"; "VE"; "IE"; "VS"; "IS";
                               "VX"]))
         sweep_bench) = Raise RuntimeError /\
  List.length (map VStr ["VA"; "VB"]) = 2%nat /\
  trace (snd (Agilent4156.save_var (TraceList (map VStr ["VA"; "VB"]))
                                   sweep_bench)) =
  [Write ":PAGE:DISP:MODE LIST"; Write ":PAGE:DISP:DVAR 'VA'";
   Write ":PAGE:DISP:DVAR 'VB'"].
Proof.
  assert (H9 : (8 < List.length (map VStr ["VC"; "IC"; "VB"; "IB"; "VE"; "IE";
                                           "VS"; "IS"; "VX"]))%nat)
    by (simpl; lia).
  assert (H2 : List.length (map VStr ["VA"; "VB"]) = 2%nat) by reflexivity.
  split; [exact H9|].
  split.
  - destruct (save_capacity bench bench_adapter bench_runtime
                (map VStr ["VC"; "IC"; "VB"; "IB"; "VE"; "IE"; "VS"; "IS";
                           "VX"]) sweep_bench) as (Hmany & _).
    exact (proj1 (Hmany H9)).
  - split; [exact H2|].
    destruct (save_capacity bench bench_adapter bench_runtime
                (map VStr ["VA"; "VB"]) sweep_bench) as (_ & _ & _ & Htwo).
    exact (proj2 (Htwo H2)).
Defined.

(** A measurement on the sampling bench. *)
Lemma measure_commands_witness :
  fst (analyzer_mode sampling_bench) = Ok "SAMPLING" /\
  writes (trace (snd (Agilent4156.measure (VInt 100) (VInt 50)
                                          sampling_bench))) =
  [Write ":PAGE:MEAS:SAMP:PER 100"; Write ":PAGE:MEAS:SAMP:POIN 50";
   Write ":PAGE:SCON:MEAS:SING; *OPC?"].
Proof.
  assert (Hmode : fst (analyzer_mode sampling_bench) = Ok "SAMPLING")
    by reflexivity.
  split; [exact Hmode|].
  destruct (measure_commands bench bench_adapter bench_runtime sampling_bench)
    as (_ & Hsampling & _).
  destruct (Hsampling Hmode) as [_ Htrace].
  rewrite Htrace. reflexivity.
Defined.

(** The table of the measured bench. *)
Lemma get_data_two_columns_witness :
  fst (Agilent4156.data_variables measured_bench) = Ok ["IC"; "VB"] /\
  fst (Agilent4156.get_data None measured_bench) =
  Ok (mkDataFrame ["IC"; "VB"] [[1%Q; 4%Q]; [2%Q; 5%Q]; [3%Q; 6%Q]]).
Proof.
  split; [reflexivity|].
  apply (get_data_two_columns bench bench_adapter bench_runtime
           measured_bench 1).
  - reflexivity.
  - discriminate.
  - reflexivity.
  - reflexivity.
  - reflexivity.
Defined.

(** A document with the slot SMU9: the reset runs, the settings for SMU1
    that come first in the document are not applied. *)
Lemma configure_unknown_slot_witness :
  In ("SMU9", [("channel_mode", VStr "V")]) unknown_slot_document /\
  ~ In "SMU9" slots /\
  fst (Agilent4156.configure (Some unknown_slot_document) sweep_bench)
    = Raise KeyError /\
  writes (trace (snd (Agilent4156.configure (Some unknown_slot_document)
                                            sweep_bench))) =
  [Write ":PAGE:CHAN:SMU1:DIS"; Write ":PAGE:CHAN:SMU2:DIS";
   Write ":PAGE:CHAN:SMU3:DIS"; Write ":PAGE:CHAN:SMU4:DIS";
   Write ":PAGE:CHAN:VMU1:DIS"; Write ":PAGE:CHAN:VMU2:DIS"].
Proof.
  assert (Hin : In ("SMU9", [("channel_mode", VStr "V")])
                   unknown_slot_document)
    by (right; left; reflexivity).
  assert (Hout : ~ In "SMU9" slots).
  { simpl. intros H.
    repeat (destruct H as [H|H]; [discriminate H|]). exact H. }
  split; [exact Hin|]. split; [exact Hout|].
  destruct (configure_unknown_slot bench bench_adapter bench_runtime
              unknown_slot_document sweep_bench "SMU9"
              [("channel_mode", VStr "V")] Hin Hout) as [_ Hconf].
  rewrite Hconf. split; reflexivity.
Defined.

(** * Further properties of the driver *)

(** ** Signal names, continued *)


Lemma check_legal_name_unchanged :
  forall (device : Type) (name : string) (w : world device),
    legal_name name ->
    check_current_voltage_name name w = (Ok name, w).
Proof.
  intros device name w [Hlen (c & rest & Heq & Hc)].
  unfold check_current_voltage_name.
  destruct (Nat.ltb_spec 6 (String.length name)) as [Hlong|_]; [lia|].
  subst name. rewrite Hc. reflexivity.
Qed.

Lemma check_illegal_name_renamed :
  forall (device : Type) (name : string) (w : world device),
    name <> "" ->
    ~ legal_name name ->
    check_current_voltage_name name w =
    (Ok ("a" ++ substring 0 5 name),
     mkWorld (dev w) (trace w)
             (app (logs w)
                  ["Renaming " ++ name ++ " to " ++
                   ("a" ++ substring 0 5 name) ++ "..."])
             (attrs w) (files w)).
Proof.
  intros device name w Hne Hbad.
  unfold check_current_voltage_name.
  destruct (Nat.ltb_spec 6 (String.length name)) as [Hlong|Hshort];
    [reflexivity|].
  destruct name as [|c rest]; [congruence|].
  destruct (isalpha c) eqn:Hc; [|reflexivity].
  exfalso. apply Hbad. split; [exact Hshort|].
  exists c, rest. split; [reflexivity|exact Hc].
Qed.

Lemma filler_name_legal :
  forall name : string, legal_name ("a" ++ substring 0 5 name).
Proof.
  intros name. split.
  - simpl. pose proof (substring_prefix_length 5 name). lia.
  - exists "a"%char, (substring 0 5 name). split; reflexivity.
Qed.

Lemma legal_name_dec :
  forall name : string, legal_name name \/ ~ legal_name name.
Proof.
  intros name.
  destruct (Nat.leb_spec (String.length name) 6) as [Hlen|Hlen].
  - destruct name as [|c rest].
    + right. intros [_ (c & rest & Heq & _)]. discriminate.
    + destruct (isalpha c) eqn:Hc.
      * left. split; [exact Hlen|]. exists c, rest. split; auto.
      * right. intros [_ (c' & rest' & Heq & Hc')].
        inversion Heq; subst. congruence.
  - right. intros [Hle _]. lia.
Qed.


(** X2: the check is idempotent: a name that came out of it goes through
    it again unchanged, without a new line in the log. *)
Theorem signal_name_check_idempotent :
  forall (device : Type) (name out : string) (w w' : world device),
    check_current_voltage_name name w = (Ok out, w') ->
    check_current_voltage_name out w' = (Ok out, w').
Proof.
  intros device name out w w' Hcheck.
  apply check_legal_name_unchanged.
  destruct (string_dec name "") as [Hempty|Hne];
    [subst name; discriminate Hcheck|].
  destruct (legal_name_dec name) as [Hleg|Hbad].
  - rewrite (check_legal_name_unchanged device _ w Hleg) in Hcheck.
    injection Hcheck as Hout _. rewrite <- Hout. exact Hleg.
  - rewrite (check_illegal_name_renamed device _ w Hne Hbad) in Hcheck.
    injection Hcheck as Hout _. rewrite <- Hout. apply filler_name_legal.
Qed.


(** ** The setters of the sweep variables *)

(** The shape the range-checked setters of VARX and VARD share: read the
    mode, turn it into a range, check the value, write it, drain. *)
Lemma ranged_setter_outcome :
  forall (device : Type) (AD : Adapter device) (R : Runtime)
         (read_mode : M device string)
         (range : string -> result (list Z)) (times : list Z -> list Z)
         (command : pyvalue -> string) (value : pyvalue)
         (w : world device),
    let setter :=
      (mode <- read_mode ;;
       r <- lift (range mode) ;;
       set_value <- lift (strict_range value (times r)) ;;
       write (command set_value) ;;;
       _ <- check_errors ;;
       ret tt) in
    match read_mode w with
    | (Raise e, w1) => setter w = (Raise e, w1)
    | (Ok mode, w1) =>
        match range mode with
        | Raise e => setter w = (Raise e, w1)
        | Ok values =>
            match strict_range value (times values) with
            | Raise e => setter w = (Raise e, w1)
            | Ok _ =>
                fst (setter w) = Ok tt /\
                trace (snd (setter w)) =
                (trace w1 ++ [Write (command value); CheckErrors])%list
            end
        end
    end.
Proof.
  intros device AD R read_mode range times command value w setter.
  subst setter. cbv [bind lift].
  destruct (read_mode w) as [[mode|e] w1]; [|reflexivity].
  destruct (range mode) as [values|e]; [|reflexivity].
  destruct (strict_range value (times values)) as [v|e] eqn:Hr;
    [|reflexivity].
  apply strict_range_returns_value in Hr. subst v.
  cbv [write check_errors ret]. cbn [dev trace logs attrs files].
  destruct (adapter_check_errors _) as [errors d]. cbn [fst snd trace].
  split; [reflexivity|]. rewrite <- app_assoc. reflexivity.
Qed.

Lemma varx_channel_mode_only_asked :
  forall (device : Type) (AD : Adapter device) (role : string)
         (w : world device),
    only_asked w (snd (VARX.channel_mode role w)).
Proof.
  intros device AD role w.
  destruct (scan_last device AD role channels None w) as (w' & Hs & Ho).
  unfold VARX.channel_mode, bind. rewrite Hs.
  destruct (find _ _); exact Ho.
Qed.

Lemma only_asked_writes :
  forall (device : Type) (w w' : world device),
    only_asked w w' -> writes (trace w') = writes (trace w).
Proof.
  intros device w w' (_ & _ & _ & _ & evs & Ht & He).
  rewrite Ht. unfold writes in *. rewrite filter_app, He. apply app_nil_r.
Qed.

Lemma only_asked_nothing_written :
  forall (device : Type) (w w' : world device),
    only_asked w w' -> nothing_written w w'.
Proof.
  intros device w w' (_ & _ & _ & _ & H). exact H.
Qed.

(** X4: [start] and [stop] of VAR1 and VAR2 are checked against the range
    of the mode the sweep variable reads: a value in that range is written
    with one command and nothing else is written; any other value is
    refused with what the check raises and nothing is written at all. *)
Theorem sweep_start_stop_validated :
  forall (device : Type) (AD : Adapter device) (R : Runtime)
         (self_id : string) (value : pyvalue) (w : world device)
         (mode : string) (values : list Z),
    fst (VARX.channel_mode self_id w) = Ok mode ->
    valid_iv mode = Ok values ->
    (strict_range value values = Ok value ->
     fst (VARX.start_set self_id value w) = Ok tt /\
     writes (trace (snd (VARX.start_set self_id value w))) =
     (writes (trace w) ++
        [Write (":PAGE:MEAS:" ++ self_id ++ ":STAR " ++ py_str value)])%list /\
     fst (VARX.stop_set self_id value w) = Ok tt /\
     writes (trace (snd (VARX.stop_set self_id value w))) =
     (writes (trace w) ++
        [Write (":PAGE:MEAS:" ++ self_id ++ ":STOP " ++ py_str value)])%list)
    /\
    (forall e,
        strict_range value values = Raise e ->
        fst (VARX.start_set self_id value w) = Raise e /\
        nothing_written w (snd (VARX.start_set self_id value w)) /\
        fst (VARX.stop_set self_id value w) = Raise e /\
        nothing_written w (snd (VARX.stop_set self_id value w))).
Proof.
  intros device AD R self_id value w mode values Hmode Hvalid.
  pose proof (varx_channel_mode_only_asked device AD self_id w) as Hasked.
  pose proof (ranged_setter_outcome device AD R (VARX.channel_mode self_id)
                valid_iv (fun r => r)
                (fun v => ":PAGE:MEAS:" ++ self_id ++ ":STAR " ++ py_str v)
                value w) as Hstart.
  pose proof (ranged_setter_outcome device AD R (VARX.channel_mode self_id)
                valid_iv (fun r => r)
                (fun v => ":PAGE:MEAS:" ++ self_id ++ ":STOP " ++ py_str v)
                value w) as Hstop.
  cbv zeta beta in Hstart, Hstop.
  fold (VARX.start_set self_id value) in Hstart.
  fold (VARX.stop_set self_id value) in Hstop.
  destruct (VARX.channel_mode self_id w) as [r w1].
  cbn [fst snd] in Hmode, Hasked. subst r.
  rewrite Hvalid in Hstart, Hstop.
  split.
  - intros Hok. rewrite Hok in Hstart, Hstop.
    destruct Hstart as [Hs1 Hs2]. destruct Hstop as [Hp1 Hp2].
    pose proof (only_asked_writes device w w1 Hasked) as Hw.
    repeat split; try assumption.
    + rewrite Hs2. unfold writes in *. rewrite filter_app, Hw. reflexivity.
    + rewrite Hp2. unfold writes in *. rewrite filter_app, Hw. reflexivity.
  - intros e He. rewrite He in Hstart, Hstop.
    rewrite Hstart, Hstop. cbn [fst snd].
    pose proof (only_asked_nothing_written device w w1 Hasked).
    repeat split; assumption.
Qed.

Lemma find_all_false :
  forall (A : Type) (f : A -> bool) (l : list A),
    (forall x, In x l -> f x = false) -> find f l = None.
Proof.
  intros A f l. induction l as [|a l IH]; intros H; simpl.
  - reflexivity.
  - rewrite (H a (or_introl eq_refl)). apply IH.
    intros x Hx. apply H. right. exact Hx.
Qed.

Lemma scan_without_owner :
  forall (device : Type) (AD : Adapter device) (role : string)
         (w : world device),
    (forall ch, In ch channels -> function_of (dev w) ch <> role) ->
    exists w',
      VARX.scan role channels None w = (Ok None, w') /\ only_asked w w'.
Proof.
  intros device AD role w Hnone.
  destruct (scan_last device AD role channels None w) as (w' & Hs & Ho).
  exists w'. split; [|exact Ho].
  rewrite Hs. rewrite find_all_false; [reflexivity|].
  intros ch Hin. apply in_rev in Hin.
  unfold plays. apply String.eqb_neq. apply Hnone. exact Hin.
Qed.

Ltac ranged_shape H read range times command setter value w :=
  pose proof (ranged_setter_outcome _ _ _ read range times command value w)
    as H;
  cbv zeta beta in H; fold setter in H.

(** X5: when none of the six channels has the sweep variable's designator
    as its function, every range-checked setter of the sweep variable
    ([start], [stop], [step], [compliance], and for VARD [offset] and
    [compliance]) fails with UnboundLocalError, whatever the value, after
    the queries of the scan and without writing anything. *)
Theorem sweep_setters_need_owner :
  forall (device : Type) (AD : Adapter device) (R : Runtime)
         (self_id : string) (value : pyvalue) (w : world device),
    (forall ch, In ch channels -> function_of (dev w) ch <> self_id) ->
    let fails (outcome : result unit * world device) :=
      fst outcome = Raise UnboundLocalError /\ only_asked w (snd outcome) in
    fails (VARX.start_set self_id value w) /\
    fails (VARX.stop_set self_id value w) /\
    fails (VARX.step_set self_id value w) /\
    fails (VARX.compliance_set self_id value w) /\
    (self_id = VARD.id ->
     fails (VARD.offset_set value w) /\ fails (VARD.compliance_set value w)).
Proof.
  intros device AD R self_id value w Hnone fails.
  destruct (scan_without_owner device AD self_id w Hnone) as (w' & Hs & Ho).
  assert (Hmode : VARX.channel_mode self_id w = (Raise UnboundLocalError, w')).
  { unfold VARX.channel_mode, bind. rewrite Hs. reflexivity. }
  ranged_shape H1 (VARX.channel_mode self_id) valid_iv (fun r : list Z => r)
    (fun v => ":PAGE:MEAS:" ++ self_id ++ ":STAR " ++ py_str v)
    (VARX.start_set self_id value) value w.
  ranged_shape H2 (VARX.channel_mode self_id) valid_iv (fun r : list Z => r)
    (fun v => ":PAGE:MEAS:" ++ self_id ++ ":STOP " ++ py_str v)
    (VARX.stop_set self_id value) value w.
  ranged_shape H3 (VARX.channel_mode self_id) valid_iv
    (fun r : list Z => py_mul_list 2 r)
    (fun v => ":PAGE:MEAS:" ++ self_id ++ ":STEP " ++ py_str v)
    (VARX.step_set self_id value) value w.
  ranged_shape H4 (VARX.channel_mode self_id) valid_compliance
    (fun r : list Z => py_mul_list 2 r)
    (fun v => ":PAGE:MEAS:" ++ self_id ++ ":COMP " ++ py_str v)
    (VARX.compliance_set self_id value) value w.
  rewrite Hmode in H1, H2, H3, H4.
  unfold fails. rewrite H1, H2, H3, H4. cbn [fst snd].
  repeat (split; [split; [reflexivity|exact Ho]|]).
  intros Hid. subst self_id.
  ranged_shape H5 (@VARD.channel_mode device AD) valid_iv
    (fun r : list Z => py_mul_list 2 r)
    (fun v => ":PAGE:MEAS:VARD:OFFSET " ++ py_str v)
    (VARD.offset_set value) value w.
  ranged_shape H6 (@VARD.channel_mode device AD) valid_compliance
    (fun r : list Z => py_mul_list 2 r)
    (fun v => ":PAGE:MEAS:VARD:COMP " ++ py_str v)
    (VARD.compliance_set value) value w.
  change (@VARD.channel_mode device AD) with (VARX.channel_mode VARD.id)
    in H5, H6.
  rewrite Hmode in H5, H6. rewrite H5, H6. cbn [fst snd].
  split; (split; [reflexivity|exact Ho]).
Qed.

Lemma valid_ranges_other_mode :
  forall mode : string,
    mode <> "V" -> mode <> "I" ->
    valid_iv mode = Raise ValueError /\
    valid_compliance mode = Raise ValueError.
Proof.
  intros mode HV HI. unfold valid_iv, valid_compliance.
  apply String.eqb_neq in HV. apply String.eqb_neq in HI.
  rewrite HV, HI. split; reflexivity.
Qed.

(** X6: when the channel that owns the sweep variable is in a mode other
    than V and I (COMM, say, or a disabled channel's empty reply), the
    setters [start], [stop], [step] and [compliance] fail with the
    configuration error (ValueError), whatever the value, and write
    nothing. *)
Theorem sweep_setters_need_v_or_i :
  forall (device : Type) (AD : Adapter device) (R : Runtime)
         (self_id : string) (value : pyvalue) (w : world device)
         (mode : string),
    fst (VARX.channel_mode self_id w) = Ok mode ->
    mode <> "V" -> mode <> "I" ->
    let fails (outcome : result unit * world device) :=
      fst outcome = Raise ValueError /\ only_asked w (snd outcome) in
    fails (VARX.start_set self_id value w) /\
    fails (VARX.stop_set self_id value w) /\
    fails (VARX.step_set self_id value w) /\
    fails (VARX.compliance_set self_id value w).
Proof.
  intros device AD R self_id value w mode Hmode HV HI fails.
  destruct (valid_ranges_other_mode mode HV HI) as [Hiv Hcomp].
  pose proof (varx_channel_mode_only_asked device AD self_id w) as Ho.
  ranged_shape H1 (VARX.channel_mode self_id) valid_iv (fun r : list Z => r)
    (fun v => ":PAGE:MEAS:" ++ self_id ++ ":STAR " ++ py_str v)
    (VARX.start_set self_id value) value w.
  ranged_shape H2 (VARX.channel_mode self_id) valid_iv (fun r : list Z => r)
    (fun v => ":PAGE:MEAS:" ++ self_id ++ ":STOP " ++ py_str v)
    (VARX.stop_set self_id value) value w.
  ranged_shape H3 (VARX.channel_mode self_id) valid_iv
    (fun r : list Z => py_mul_list 2 r)
    (fun v => ":PAGE:MEAS:" ++ self_id ++ ":STEP " ++ py_str v)
    (VARX.step_set self_id value) value w.
  ranged_shape H4 (VARX.channel_mode self_id) valid_compliance
    (fun r : list Z => py_mul_list 2 r)
    (fun v => ":PAGE:MEAS:" ++ self_id ++ ":COMP " ++ py_str v)
    (VARX.compliance_set self_id value) value w.
  destruct (VARX.channel_mode self_id w) as [r w1].
  cbn [fst snd] in Hmode, Ho. subst r.
  rewrite Hiv in H1, H2, H3. rewrite Hcomp in H4.
  unfold fails. rewrite H1, H2, H3, H4. cbn [fst snd].
  repeat (split; [split; [reflexivity|exact Ho]|]).
  split; [reflexivity|exact Ho].
Qed.

Lemma strict_range_doubled_compliance :
  forall mode values value,
    valid_compliance mode = Ok values ->
    strict_range value (py_mul_list 2 values) = strict_range value values.
Proof.
  intros mode values value H. unfold valid_compliance in H.
  destruct (mode =? "I")%string;
    [|destruct (mode =? "V")%string; [|discriminate]];
    inversion H; subst; reflexivity.
Qed.

Lemma ranged_setter_accepts :
  forall (device : Type) (AD : Adapter device) (R : Runtime)
         (read_mode : M device string)
         (range : string -> result (list Z)) (times : list Z -> list Z)
         (command : pyvalue -> string) (value : pyvalue)
         (w : world device) (mode : string) (values : list Z),
    fst (read_mode w) = Ok mode ->
    range mode = Ok values ->
    strict_range value (times values) = strict_range value values ->
    fst ((mode <- read_mode ;;
          r <- lift (range mode) ;;
          set_value <- lift (strict_range value (times r)) ;;
          write (command set_value) ;;;
          _ <- check_errors ;;
          ret tt) w) = Ok tt
    <-> strict_range value values = Ok value.
Proof.
  intros device AD R read_mode range times command value w mode values
         Hmode Hrange Htimes.
  pose proof (ranged_setter_outcome device AD R read_mode range times command
                value w) as H.
  cbv zeta in H.
  destruct (read_mode w) as [r w1]. cbn [fst] in Hmode. subst r.
  rewrite Hrange, Htimes in H.
  destruct (strict_range value values) as [v|e] eqn:Hr.
  - apply strict_range_returns_value in Hr. subst v.
    destruct H as [H _]. split; auto.
  - rewrite H. cbn [fst]. split; discriminate.
Qed.

(** X7: [compliance] of VAR1 and VAR2 and [offset] and [compliance] of
    VARD multiply the range list by 2 as [step] does, and like [step] they
    accept exactly the values of the range itself: the compliance range of
    the mode for [compliance], the value range for [offset]. *)
Theorem sweep_compliance_offset_range :
  forall (device : Type) (AD : Adapter device) (R : Runtime)
         (self_id : string) (value : pyvalue) (w : world device),
    (forall mode values,
        fst (VARX.channel_mode self_id w) = Ok mode ->
        valid_compliance mode = Ok values ->
        (fst (VARX.compliance_set self_id value w) = Ok tt <->
         strict_range value values = Ok value)) /\
    (forall mode values,
        fst (VARD.channel_mode w) = Ok mode ->
        valid_iv mode = Ok values ->
        (fst (VARD.offset_set value w) = Ok tt <->
         strict_range value values = Ok value)) /\
    (forall mode values,
        fst (VARD.channel_mode w) = Ok mode ->
        valid_compliance mode = Ok values ->
        (fst (VARD.compliance_set value w) = Ok tt <->
         strict_range value values = Ok value)).
Proof.
  intros device AD R self_id value w.
  split; [|split]; intros mode values Hmode Hvalid.
  - apply (ranged_setter_accepts device AD R (VARX.channel_mode self_id)
             valid_compliance (fun r => py_mul_list 2 r)
             (fun v => ":PAGE:MEAS:" ++ self_id ++ ":COMP " ++ py_str v)
             value w mode values Hmode Hvalid).
    apply (strict_range_doubled_compliance mode). exact Hvalid.
  - apply (ranged_setter_accepts device AD R VARD.channel_mode
             valid_iv (fun r => py_mul_list 2 r)
             (fun v => ":PAGE:MEAS:VARD:OFFSET " ++ py_str v)
             value w mode values Hmode Hvalid).
    apply (strict_range_doubled mode). exact Hvalid.
  - apply (ranged_setter_accepts device AD R VARD.channel_mode
             valid_compliance (fun r => py_mul_list 2 r)
             (fun v => ":PAGE:MEAS:VARD:COMP " ++ py_str v)
             value w mode values Hmode Hvalid).
    apply (strict_range_doubled_compliance mode). exact Hvalid.
Qed.

(** ** Constant sources *)

Lemma measure_mode_read :
  forall (device : Type) (AD : Adapter device) (w : world device),
    nothing_written w (snd (analyzer_mode w)).
Proof.
  intros device AD w.
  unfold analyzer_mode, bind at 1.
  pose proof (control_get_reads device AD ":PAGE:CHAN:MODE?" true w)
    as [Hr N].
  destruct (control_get ":PAGE:CHAN:MODE?" true w) as [r w1].
  simpl in Hr. subst r. exact N.
Qed.

Lemma strict_range_interval :
  forall (value : pyvalue) (q : Q) (lo hi : Z),
    num_of value = Some q ->
    lo <= hi ->
    (strict_range value [lo; hi] = Ok value <->
     (inject_Z lo <= q)%Q /\ (q <= inject_Z hi)%Q) /\
    (strict_range value [lo; hi] = Raise ValueError <->
     ~ ((inject_Z lo <= q)%Q /\ (q <= inject_Z hi)%Q)).
Proof.
  intros value q lo hi Hnum Hle.
  unfold strict_range. rewrite Hnum. cbn [py_min py_max fold_left].
  rewrite Z.min_l, Z.max_r by lia.
  destruct (Qle_bool (inject_Z lo) q) eqn:H1;
    destruct (Qle_bool q (inject_Z hi)) eqn:H2; cbn [andb].
  - apply Qle_bool_iff in H1. apply Qle_bool_iff in H2.
    split; split; try tauto; try discriminate.
  - assert (N : ~ (q <= inject_Z hi)%Q)
      by (intros H; apply Qle_bool_iff in H; congruence).
    split; split; try tauto; try discriminate.
  - assert (N : ~ (inject_Z lo <= q)%Q)
      by (intros H; apply Qle_bool_iff in H; congruence).
    split; split; try tauto; try discriminate.
  - assert (N : ~ (inject_Z lo <= q)%Q)
      by (intros H; apply Qle_bool_iff in H; congruence).
    split; split; try tauto; try discriminate.
Qed.

(** X8: [constant_value] of a voltage-source channel takes the fixed range
    [-200, 200] whatever the channel's mode or function, which it does not
    read: a number outside is refused with the validation error before any
    message is sent, a string with a TypeError; a number inside is
    written, in a sweep, as one command for the channel. *)
Theorem vsu_constant_value_range :
  forall (device : Type) (AD : Adapter device) (R : Runtime)
         (ch : Channel) (value : pyvalue) (w : world device),
    (forall q,
        num_of value = Some q ->
        ~ ((inject_Z (-200) <= q)%Q /\ (q <= inject_Z 200)%Q) ->
        VSU.constant_value_set ch value w = (Raise ValueError, w)) /\
    (num_of value = None ->
     VSU.constant_value_set ch value w = (Raise TypeError, w)) /\
    (forall q,
        num_of value = Some q ->
        (inject_Z (-200) <= q)%Q /\ (q <= inject_Z 200)%Q ->
        fst (analyzer_mode w) = Ok "SWEEP" ->
        fst (VSU.constant_value_set ch value w) = Ok tt /\
        writes (trace (snd (VSU.constant_value_set ch value w))) =
        (writes (trace w) ++
           [Write (":PAGE:MEAS:CONS:" ++ id ch ++ " " ++ py_str value)])%list).
Proof.
  intros device AD R ch value w.
  split; [|split].
  - intros q Hnum Hout.
    assert (Hle : -200 <= 200) by lia.
    destruct (strict_range_interval value q (-200) 200 Hnum Hle) as [_ Hbad].
    apply Hbad in Hout.
    unfold VSU.constant_value_set, bind at 1, lift at 1.
    rewrite Hout. reflexivity.
  - intros Hnum.
    unfold VSU.constant_value_set, bind at 1, lift at 1, strict_range.
    rewrite Hnum. reflexivity.
  - intros q Hnum Hin Hsweep.
    assert (Hle : -200 <= 200) by lia.
    destruct (strict_range_interval value q (-200) 200 Hnum Hle) as [Hgood _].
    apply Hgood in Hin.
    pose proof (measure_mode_read device AD w) as Hread.
    cbv [VSU.constant_value_set bind lift].
    rewrite Hin.
    destruct (analyzer_mode w) as [r w1]. cbn [fst snd] in Hsweep, Hread.
    subst r. change ("SWEEP" =? "SWEEP")%string with true. cbv iota.
    cbv [write check_errors ret].
    cbn [dev trace logs attrs files].
    destruct (adapter_check_errors _) as [errors d]. cbn [fst snd trace].
    split; [reflexivity|].
    destruct Hread as (evs & Ht & He).
    rewrite Ht. unfold writes in *. rewrite !filter_app, He.
    cbn [filter is_write]. rewrite !app_nil_r. reflexivity.
Qed.

(** A source-measure channel that is ready for a constant: what
    [__validate_cons] and [__validate_compl] return is the range of the
    mode read last. *)
Lemma smu_validate_ready :
  forall (device : Type) (AD : Adapter device)
         (ch : Channel) (w w1 w2 w3 : world device) (mode mode' : string),
    AgilentMeasurementChannel.channel_mode ch w = (Ok mode, w1) ->
    mode <> "COMM" ->
    AgilentMeasurementChannel.channel_function ch w1 = (Ok "CONS", w2) ->
    AgilentMeasurementChannel.channel_mode ch w2 = (Ok mode', w3) ->
    SMU.validate_cons ch w = (valid_iv mode', w3) /\
    SMU.validate_compl ch w = (valid_compliance mode', w3) /\
    nothing_written w w3.
Proof.
  intros device AD ch w w1 w2 w3 mode mode' Hmode Hcomm Hfunc Hmode'.
  destruct (constant_ready_reads device AD ch w w1 w2 mode "CONS" Hmode Hfunc)
    as (w' & Hready & N).
  apply String.eqb_neq in Hcomm. rewrite Hcomm in Hready.
  cbn [negb andb] in Hready.
  change ("CONS" =? "CONS")%string with true in Hready.
  assert (Hw' : w' = w2).
  { unfold SMU.constant_ready, bind in Hready.
    rewrite Hmode, Hcomm in Hready. cbn [negb] in Hready.
    rewrite Hfunc in Hready. inversion Hready. reflexivity. }
  subst w'.
  assert (N3 : nothing_written w2 w3).
  { pose proof (control_get_reads device AD
      (":PAGE:CHAN:" ++ id ch ++ ":MODE?") true w2) as [_ N'].
    unfold AgilentMeasurementChannel.channel_mode in Hmode'.
    rewrite Hmode' in N'. exact N'. }
  split; [|split].
  - unfold SMU.validate_cons, bind at 1. rewrite Hready. cbn [negb].
    unfold bind. rewrite Hmode'. reflexivity.
  - unfold SMU.validate_compl, bind at 1. rewrite Hready. cbn [negb].
    unfold bind. rewrite Hmode'. reflexivity.
  - eapply nothing_written_trans; eassumption.
Qed.

(** X9: on a source-measure channel whose mode is not COMM and whose
    function is CONS, [constant_value] is checked against the value range
    of the mode and [compliance] against the compliance range of the mode,
    the other one of the two; a refused value raises before anything is
    written, and an accepted constant value is written, in a sweep, as one
    command for the channel. *)
Theorem smu_constant_checked :
  forall (device : Type) (AD : Adapter device) (R : Runtime)
         (ch : Channel) (value : pyvalue)
         (w w1 w2 w3 : world device) (mode mode' : string),
    AgilentMeasurementChannel.channel_mode ch w = (Ok mode, w1) ->
    mode <> "COMM" ->
    AgilentMeasurementChannel.channel_function ch w1 = (Ok "CONS", w2) ->
    AgilentMeasurementChannel.channel_mode ch w2 = (Ok mode', w3) ->
    nothing_written w w3 /\
    (forall values e,
        valid_iv mode' = Ok values ->
        strict_range value values = Raise e ->
        SMU.constant_value_set ch value w = (Raise e, w3)) /\
    (forall values e,
        valid_compliance mode' = Ok values ->
        strict_range value values = Raise e ->
        SMU.compliance_set ch value w = (Raise e, w3)) /\
    (forall values,
        valid_iv mode' = Ok values ->
        strict_range value values = Ok value ->
        fst (analyzer_mode w3) = Ok "SWEEP" ->
        fst (SMU.constant_value_set ch value w) = Ok tt /\
        writes (trace (snd (SMU.constant_value_set ch value w))) =
        (writes (trace w) ++
           [Write (":PAGE:MEAS:CONS:" ++ id ch ++ " " ++ py_str value)])%list).
Proof.
  intros device AD R ch value w w1 w2 w3 mode mode' Hmode Hcomm Hfunc Hmode'.
  destruct (smu_validate_ready device AD ch w w1 w2 w3 mode mode'
              Hmode Hcomm Hfunc Hmode') as (Hcons & Hcompl & N).
  split; [exact N|]. split; [|split].
  - intros values e Hvalid Hr.
    unfold SMU.constant_value_set, bind at 1. rewrite Hcons, Hvalid.
    unfold bind at 1, lift. rewrite Hr. reflexivity.
  - intros values e Hvalid Hr.
    unfold SMU.compliance_set, bind at 1. rewrite Hcompl, Hvalid.
    unfold bind at 1, lift. rewrite Hr. reflexivity.
  - intros values Hvalid Hr Hsweep.
    pose proof (measure_mode_read device AD w3) as Hread.
    assert (Hrun : SMU.constant_value_set ch value w =
      match analyzer_mode w3 with
      | (Ok m, w4) =>
          ((if (m =? "SWEEP")%string
            then write (":PAGE:MEAS:CONS:" ++ id ch ++ " " ++ py_str value)
            else (c <- lift (channel_attribute (id ch)) ;;
                  write (":PAGE:MEAS:SAMP:CONS:" ++ c ++ " " ++ py_str value)))
           ;;; (_ <- check_errors ;; ret tt)) w4
      | (Raise e, w4) => (Raise e, w4)
      end).
    { unfold SMU.constant_value_set, bind at 1. rewrite Hcons, Hvalid.
      unfold bind at 1, lift. rewrite Hr. reflexivity. }
    rewrite Hrun. clear Hrun.
    destruct (analyzer_mode w3) as [r w4]. cbn [fst snd] in Hsweep, Hread.
    subst r. change ("SWEEP" =? "SWEEP")%string with true. cbv iota.
    cbv [bind write check_errors ret]. cbn [dev trace logs attrs files].
    destruct (adapter_check_errors _) as [errors d]. cbn [fst snd trace].
    split; [reflexivity|].
    pose proof (nothing_written_trans device w w3 w4 N Hread)
      as (evs & Ht & He).
    rewrite Ht. unfold writes in *. rewrite !filter_app, He.
    cbn [filter is_write]. rewrite !app_nil_r. reflexivity.
Qed.

(** ** Saving variables, continued *)

(** X10: [save] always writes the command that selects the list display
    first.  A list within the limit of 8 (also the empty list) is then
    written name by name in the order given, a single string is written as
    one name, and any other argument raises TypeError with the display
    command already sent.  [save_var] does the same with the limit 2 and
    the variable list. *)
Theorem save_shapes :
  forall (device : Type) (AD : Adapter device) (R : Runtime)
         (w : world device),
    (forall names,
        (List.length names <= 8)%nat ->
        fst (Agilent4156.save (TraceList names) w) = Ok tt /\
        trace (snd (Agilent4156.save (TraceList names) w)) =
        (trace w ++ Write ":PAGE:DISP:MODE LIST" ::
           map (fun name => Write (":PAGE:DISP:LIST '" ++ py_str name ++ "'"))
               names)%list) /\
    (forall names,
        (List.length names <= 2)%nat ->
        fst (Agilent4156.save_var (TraceList names) w) = Ok tt /\
        trace (snd (Agilent4156.save_var (TraceList names) w)) =
        (trace w ++ Write ":PAGE:DISP:MODE LIST" ::
           map (fun name => Write (":PAGE:DISP:DVAR '" ++ py_str name ++ "'"))
               names)%list) /\
    (forall name,
        fst (Agilent4156.save (TraceStr name) w) = Ok tt /\
        trace (snd (Agilent4156.save (TraceStr name) w)) =
        (trace w ++ [Write ":PAGE:DISP:MODE LIST";
                     Write (":PAGE:DISP:LIST '" ++ name ++ "'")])%list /\
        fst (Agilent4156.save_var (TraceStr name) w) = Ok tt /\
        trace (snd (Agilent4156.save_var (TraceStr name) w)) =
        (trace w ++ [Write ":PAGE:DISP:MODE LIST";
                     Write (":PAGE:DISP:DVAR '" ++ name ++ "'")])%list) /\
    fst (Agilent4156.save TraceOther w) = Raise TypeError /\
    trace (snd (Agilent4156.save TraceOther w)) =
    (trace w ++ [Write ":PAGE:DISP:MODE LIST"])%list /\
    fst (Agilent4156.save_var TraceOther w) = Raise TypeError /\
    trace (snd (Agilent4156.save_var TraceOther w)) =
    (trace w ++ [Write ":PAGE:DISP:MODE LIST"])%list.
Proof.
  intros device AD R w.
  assert (Hlist : forall prefix names,
    fst (Agilent4156.write_each prefix names
           (snd (write ":PAGE:DISP:MODE LIST" w))) = Ok tt /\
    trace (snd (Agilent4156.write_each prefix names
                  (snd (write ":PAGE:DISP:MODE LIST" w)))) =
    (trace w ++ Write ":PAGE:DISP:MODE LIST" ::
       map (fun name => Write (prefix ++ "'" ++ py_str name ++ "'"))
           names)%list).
  { intros prefix names.
    destruct (write_each_trace device AD R prefix names
                (snd (write ":PAGE:DISP:MODE LIST" w))) as [Hok Ht].
    split; [exact Hok|]. rewrite Ht. cbn [write snd trace].
    rewrite <- app_assoc. reflexivity. }
  split; [|split; [|split]].
  - intros names Hlen.
    destruct (save_list device AD R names w) as [Hsave _]. rewrite Hsave.
    assert (Hle : (8 <? List.length names)%nat = false)
      by (apply Nat.ltb_ge; exact Hlen).
    rewrite Hle. apply (Hlist ":PAGE:DISP:LIST ").
  - intros names Hlen.
    destruct (save_list device AD R names w) as [_ Hvar]. rewrite Hvar.
    assert (Hle : (2 <? List.length names)%nat = false)
      by (apply Nat.ltb_ge; exact Hlen).
    rewrite Hle. apply (Hlist ":PAGE:DISP:DVAR ").
  - intros name. cbn. rewrite <- !app_assoc. repeat split; reflexivity.
  - repeat split; reflexivity.
Qed.

(** ** The saved variables and their data *)

Lemma split_comma_nonempty_list :
  forall s : string, split_comma s <> [].
Proof.
  intros [|c r]; simpl; [discriminate|].
  destruct (Ascii.eqb c ","); [discriminate|].
  destruct (split_comma r); discriminate.
Qed.

Lemma split_comma_pieces :
  forall (s piece : string),
    In piece (split_comma s) -> contains_char "," piece = false.
Proof.
  induction s as [|c r IH]; intros piece Hin.
  - destruct Hin as [<-|[]]. reflexivity.
  - cbn [split_comma] in Hin.
    destruct (Ascii.eqb c ",") eqn:Hc.
    + destruct Hin as [<-|Hin]; [reflexivity|]. apply IH. exact Hin.
    + destruct (split_comma r) as [|h t] eqn:Hr.
      * destruct Hin as [<-|[]]. cbn. rewrite Hc. reflexivity.
      * destruct Hin as [<-|Hin].
        -- cbn. rewrite Hc. apply IH. left. reflexivity.
        -- apply IH. right. exact Hin.
Qed.

(** X11: the saved variables are the names on the display list followed by
    the names on the variable list, each list taken from its reply split at
    the commas with the empty pieces dropped; so no name returned is empty
    or holds a comma.  Only the two queries are sent. *)
Theorem data_variables_names :
  forall (device : Type) (AD : Adapter device) (w : world device),
    exists names,
      fst (Agilent4156.data_variables w) = Ok names /\
      names =
      (filter nonempty (split_comma (adapter_ask ":PAGE:DISP:LIST?" (dev w)))
       ++ filter nonempty
            (split_comma (adapter_ask ":PAGE:DISP:DVAR?" (dev w))))%list /\
      (forall name,
          In name names -> name <> "" /\ contains_char "," name = false) /\
      trace (snd (Agilent4156.data_variables w)) =
      (trace w ++ [Ask ":PAGE:DISP:LIST?"; Ask ":PAGE:DISP:DVAR?"])%list.
Proof.
  intros device AD w.
  eexists. split; [reflexivity|]. split; [apply filter_app|]. split.
  - intros name Hin. apply filter_In in Hin. destruct Hin as [Hin Hne].
    split.
    + intros ->. discriminate Hne.
    + apply in_app_or in Hin.
      destruct Hin as [Hin|Hin]; eapply split_comma_pieces; exact Hin.
  - cbn. rewrite <- app_assoc. reflexivity.
Qed.

Lemma column_as_rows :
  forall col : list Q,
    map (fun x => [x]) col = table_rows [col] (List.length col).
Proof.
  intros col. unfold table_rows.
  induction col as [|x col IH]; [reflexivity|].
  cbn [List.length seq map nth]. f_equal.
  rewrite IH. rewrite <- seq_shift, map_map. reflexivity.
Qed.

(** Stacking, index by index: joining the rows of two tables built over
    the same indices joins the two rows of each index. *)
Lemma stack_by_index :
  forall (left right : nat -> list Q) (indices : list nat),
    map (fun ab : list Q * list Q => (fst ab ++ snd ab)%list)
        (combine (map left indices) (map right indices)) =
    map (fun i => (left i ++ right i)%list) indices.
Proof.
  intros left right indices.
  induction indices as [|i indices IH]; [reflexivity|].
  cbn [map combine fst snd]. rewrite IH. reflexivity.
Qed.

Lemma table_rows_snoc :
  forall (cols : list (list Q)) (col : list Q) (m : nat),
    List.length col = m ->
    map (fun ab : list Q * list Q => (fst ab ++ snd ab)%list)
        (combine (table_rows cols m) (map (fun x => [x]) col)) =
    table_rows (cols ++ [col]) m.
Proof.
  intros cols col m Hlen. subst m.
  rewrite column_as_rows. unfold table_rows.
  rewrite stack_by_index.
  apply map_ext. intros i. rewrite map_app. reflexivity.
Qed.

Lemma table_rows_length :
  forall (cols : list (list Q)) (m : nat),
    List.length (table_rows cols m) = m.
Proof.
  intros cols m. unfold table_rows. rewrite length_map, length_seq.
  reflexivity.
Qed.

Lemma table_rows_width :
  forall (cols : list (list Q)) (m : nat) (width : nat),
    List.length cols = width ->
    forallb (fun r => (List.length r =? width)%nat) (table_rows cols m) = true.
Proof.
  intros cols m width Hw. apply forallb_forall. intros r Hin.
  unfold table_rows in Hin. apply in_map_iff in Hin.
  destruct Hin as (i & <- & _). rewrite length_map, Hw. apply Nat.eqb_refl.
Qed.

Section Fetching.

Context {device : Type} {AD : Adapter device}.

(** After the first round every further round stacks one more column of
    the same length to the right. *)
Lemma fetch_stacks :
  forall (rest : list string) (cols : list (list Q)) (arr : ndarray)
         (m i : nat) (w : world device),
    as_rows arr = table_rows cols m ->
    (forall name, In name rest -> List.length (data_column (dev w) name) = m) ->
    exists arr' w',
      Agilent4156.fetch (S i) rest (Some arr) (Some arr) w
      = (Ok (Some arr', Some arr'), w') /\
      as_rows arr' = table_rows (cols ++ map (data_column (dev w)) rest) m /\
      dev w' = dev w /\ files w' = files w /\ writes (trace w') = writes (trace w).
Proof.
  induction rest as [|name rest IH]; intros cols arr m i w Hrows Hlen.
  - exists arr, w. cbn [map]. rewrite app_nil_r.
    repeat split; assumption.
  - cbn [Agilent4156.fetch]. unfold bind at 1, values at 1.
    cbn [Nat.eqb]. unfold bind at 1, lift at 1, column_stack.
    fold (data_column (dev w) name).
    assert (Hcol : List.length (data_column (dev w) name) = m)
      by (apply Hlen; left; reflexivity).
    cbn [as_rows]. rewrite Hrows, table_rows_length, length_map, Hcol.
    rewrite Nat.eqb_refl.
    rewrite (table_rows_snoc cols (data_column (dev w) name) m Hcol).
    set (w1 := mkWorld _ _ _ _ _).
    destruct (IH (cols ++ [data_column (dev w) name])%list
                 (Arr2 (table_rows (cols ++ [data_column (dev w) name]) m))
                 m (S i) w1 eq_refl) as (arr' & w' & Hf & Hr & Hd & Hfi & Hw).
    { intros n Hn. apply Hlen. right. exact Hn. }
    exists arr', w'. split; [exact Hf|].
    split.
    + rewrite Hr. cbn [map]. rewrite <- app_assoc. reflexivity.
    + split; [exact Hd|]. split; [exact Hfi|].
      rewrite Hw. unfold w1, writes. cbn [trace].
      rewrite filter_app. cbn. apply app_nil_r.
Qed.

Lemma fetch_table :
  forall (header : list string) (m : nat) (w : world device),
    header <> [] ->
    (forall name, In name header -> List.length (data_column (dev w) name) = m) ->
    exists arr w',
      Agilent4156.fetch 0 header None None w = (Ok (Some arr, Some arr), w') /\
      as_rows arr = table_rows (map (data_column (dev w)) header) m /\
      dev w' = dev w /\ files w' = files w /\ writes (trace w') = writes (trace w).
Proof.
  intros header m w Hne Hlen.
  destruct header as [|name rest]; [congruence|].
  cbn [Agilent4156.fetch]. unfold bind at 1, values at 1. cbn [Nat.eqb].
  fold (data_column (dev w) name).
  assert (Hcol : List.length (data_column (dev w) name) = m)
    by (apply Hlen; left; reflexivity).
  set (w1 := mkWorld _ _ _ _ _).
  destruct (fetch_stacks rest [data_column (dev w) name]
              (Arr1 (data_column (dev w) name)) m 0 w1)
    as (arr' & w' & Hf & Hr & Hd & Hfi & Hw).
  { cbn [as_rows]. rewrite <- Hcol. apply column_as_rows. }
  { intros n Hn. apply Hlen. right. exact Hn. }
  exists arr', w'. split; [exact Hf|]. split; [exact Hr|].
  split; [exact Hd|]. split; [exact Hfi|].
  rewrite Hw. unfold w1, writes. cbn [trace].
  rewrite filter_app. cbn. apply app_nil_r.
Qed.

End Fetching.

(** The run of [get_data] up to the loop: the completion query, the two
    list queries when the operation is complete, the format command. *)
Lemma get_data_prelude :
  forall (device : Type) (AD : Adapter device) (R : Runtime)
         (path : option string) (w : world device) (done : Z),
    py_int (adapter_ask "*OPC?" (dev w)) = Ok done ->
    exists w2,
      dev w2 = adapter_write ":FORM:DATA ASC" (dev w) /\
      files w2 = files w /\
      writes (trace w2) = (writes (trace w) ++ [Write ":FORM:DATA ASC"])%list /\
      Agilent4156.get_data path w =
      match (if (done =? 0)%Z then None
             else Some (filter nonempty
                    (split_comma (adapter_ask ":PAGE:DISP:LIST?" (dev w)) ++
                     split_comma (adapter_ask ":PAGE:DISP:DVAR?" (dev w)))%list))
      with
      | None => (Raise UnboundLocalError, w2)
      | Some header =>
          (locals <- Agilent4156.fetch 0 header None None ;;
           match snd locals with
           | None => raise UnboundLocalError
           | Some data =>
               df <- lift (new_DataFrame data header) ;;
               match path with
               | None => ret df
               | Some path =>
                   let ext := snd (splitext path) in
                   let path := if (ext =? ".csv")%string then path
                               else path ++ ".csv" in
                   to_csv path df ;;; ret df
               end
           end) w2
      end.
Proof.
  intros device AD R path w done Hopc.
  cbv [Agilent4156.get_data Agilent4156.data_variables].
  unfold bind at 1, ask at 1. cbn [dev trace logs attrs files].
  unfold bind at 1, lift at 1. rewrite Hopc.
  destruct (done =? 0)%Z eqn:Hdone.
  - eexists. split; [|split; [|split; [|reflexivity]]].
    + reflexivity.
    + reflexivity.
    + cbn [trace]. unfold writes. rewrite !filter_app. cbn.
      rewrite app_nil_r. reflexivity.
  - eexists. split; [|split; [|split; [|reflexivity]]].
    + reflexivity.
    + reflexivity.
    + cbn [trace]. unfold writes. rewrite !filter_app. cbn.
      rewrite !app_nil_r. reflexivity.
Qed.

(** X12: when the operation is complete and every saved variable has [m]
    numbers, [get_data] returns the rectangular table whose columns are
    the saved variables in their order and whose row [i] holds number [i]
    of each variable; it writes the format command and nothing else, and
    without a path no file. *)
Theorem get_data_table :
  forall (device : Type) (AD : Adapter device) (R : Runtime)
         (w : world device) (done : Z) (header : list string) (m : nat),
    py_int (adapter_ask "*OPC?" (dev w)) = Ok done ->
    done <> 0 ->
    fst (Agilent4156.data_variables w) = Ok header ->
    header <> [] ->
    (forall name,
        In name header ->
        List.length (data_column (adapter_write ":FORM:DATA ASC" (dev w)) name)
        = m) ->
    exists w',
      Agilent4156.get_data None w =
      (Ok (mkDataFrame header
             (table_rows
                (map (data_column (adapter_write ":FORM:DATA ASC" (dev w)))
                     header) m)), w') /\
      files w' = files w /\
      writes (trace w') = (writes (trace w) ++ [Write ":FORM:DATA ASC"])%list.
Proof.
  intros device AD R w done header m Hopc Hdone Hvars Hne Hlen.
  destruct (data_variables_value device AD w) as [Hv _].
  rewrite Hv in Hvars. injection Hvars as Hvars.
  apply Z.eqb_neq in Hdone.
  destruct (get_data_prelude device AD R None w done Hopc)
    as (w2 & Hd2 & Hf2 & Hw2 & Hrun).
  rewrite Hdone, Hvars in Hrun. rewrite Hrun. clear Hrun.
  rewrite <- Hd2 in Hlen |- *.
  destruct (fetch_table header m w2 Hne Hlen)
    as (arr & w' & Hfetch & Hrows & Hd & Hfi & Hw).
  exists w'. unfold bind at 1. rewrite Hfetch. cbn [snd].
  unfold bind, lift, ret, new_DataFrame.
  rewrite Hrows, table_rows_width by apply length_map.
  split; [reflexivity|]. split; congruence.
Qed.


(** X14: with a path, [get_data] returns the table it returns without one
    and writes it to one file: the path itself when its extension is .csv,
    else the path with .csv appended; as the root and the extension that
    [splitext] gives make up the path, the file's name always ends in
    .csv.  Nothing else differs from the run without a path. *)
Theorem get_data_export :
  forall (device : Type) (AD : Adapter device) (R : Runtime)
         (path : string) (w w' : world device) (df : DataFrame),
    (forall p, fst (splitext p) ++ snd (splitext p) = p) ->
    Agilent4156.get_data None w = (Ok df, w') ->
    exists stem,
      Agilent4156.get_data (Some path) w =
      (Ok df, mkWorld (dev w') (trace w') (logs w') (attrs w')
                      (app (files w') [(stem ++ ".csv", df)])) /\
      (stem = path \/ path = stem ++ ".csv").
Proof.
  intros device AD R path w w' df Hsplit Hrun.
  exists (if (snd (splitext path) =? ".csv")%string
          then fst (splitext path) else path).
  split.
  - assert (Hfile :
      (if (snd (splitext path) =? ".csv")%string
       then fst (splitext path) else path) ++ ".csv" =
      (if (snd (splitext path) =? ".csv")%string
       then path else path ++ ".csv")).
    { destruct (String.eqb_spec (snd (splitext path)) ".csv") as [E|E];
        [|reflexivity].
      rewrite <- E. apply Hsplit. }
    rewrite Hfile. clear Hfile.
    revert Hrun.
    cbv [Agilent4156.get_data Agilent4156.data_variables bind ask lift ret
         write to_csv].
    cbn [dev trace logs attrs files].
    destruct (py_int _) as [done|e]; [|discriminate].
    destruct (done =? 0)%Z; [discriminate|].
    destruct (Agilent4156.fetch _ _ _ _ _) as [[locals|e] w3]; [|discriminate].
    destruct (snd locals); [|discriminate].
    destruct (new_DataFrame _ _); [|discriminate].
    intros H. inversion H; subst. reflexivity.
  - destruct (String.eqb_spec (snd (splitext path)) ".csv") as [E|E].
    + right. rewrite <- E. symmetry. apply Hsplit.
    + left. reflexivity.
Qed.

(** ** Configuring from a document, continued *)






(** ** Attributes with a fixed set of values *)

(** A property checked against a set of strings: a member is written and
    the error queue drained; anything else is refused before a message is
    sent. *)
Lemma discrete_setter_outcome :
  forall (device : Type) (AD : Adapter device) (R : Runtime)
         (prefix : string) (legal : list string) (value : pyvalue)
         (w : world device),
    let setter :=
      control_set (percent_s prefix)
                  (fun v => strict_discrete_set v (map VStr legal)) ret true in
    (In value (map VStr legal) ->
     fst (setter value w) = Ok tt /\
     trace (snd (setter value w)) =
     (trace w ++ [Write (prefix ++ py_str value); CheckErrors])%list) /\
    (~ In value (map VStr legal) ->
     setter value w = (Raise ValueError, w)).
Proof.
  intros device AD R prefix legal value w setter.
  subst setter. unfold control_set, strict_discrete_set.
  pose proof (py_in_strings value legal) as Hin.
  destruct (py_in value (map VStr legal)).
  - split; [|intros H; exfalso; apply H; apply Hin; reflexivity].
    intros _.
    cbv [bind lift ret percent_s write drain_when check_errors].
    cbn [dev trace logs attrs files].
    destruct (adapter_check_errors _) as [errors d]. cbn [fst snd trace].
    split; [reflexivity|]. rewrite <- app_assoc. reflexivity.
  - split; [|reflexivity].
    intros H. apply Hin in H. discriminate.
Qed.

(** X16: the function of a channel of any kind, also a voltage-source
    channel, can be set to VAR1, VAR2, VARD and CONS and to nothing else,
    and the series resistance of a source-measure channel to 0OHM, 10KOHM,
    100KOHM and 1MOHM and to nothing else: a value of the set is written
    in one command and the error queue drained, any other value is
    refused with the validation error and nothing is sent. *)
Theorem channel_function_and_resistance_sets :
  forall (device : Type) (AD : Adapter device) (R : Runtime)
         (ch : Channel) (value : pyvalue) (w : world device),
    (In value [VStr "VAR1"; VStr "VAR2"; VStr "VARD"; VStr "CONS"] ->
     fst (AgilentMeasurementChannel.channel_function_set ch value w) = Ok tt /\
     trace (snd (AgilentMeasurementChannel.channel_function_set ch value w)) =
     (trace w ++
        [Write ((":PAGE:CHAN:" ++ id ch ++ ":FUNC ") ++ py_str value);
         CheckErrors])%list) /\
    (~ In value [VStr "VAR1"; VStr "VAR2"; VStr "VARD"; VStr "CONS"] ->
     AgilentMeasurementChannel.channel_function_set ch value w
     = (Raise ValueError, w)) /\
    (In value [VStr "0OHM"; VStr "10KOHM"; VStr "100KOHM"; VStr "1MOHM"] ->
     fst (SMU.series_resistance_set ch value w) = Ok tt /\
     trace (snd (SMU.series_resistance_set ch value w)) =
     (trace w ++
        [Write ((":PAGE:CHAN:" ++ id ch ++ ":SRES ") ++ py_str value);
         CheckErrors])%list) /\
    (~ In value [VStr "0OHM"; VStr "10KOHM"; VStr "100KOHM"; VStr "1MOHM"] ->
     SMU.series_resistance_set ch value w = (Raise ValueError, w)).
Proof.
  intros device AD R ch value w.
  destruct (discrete_setter_outcome device AD R
              (":PAGE:CHAN:" ++ id ch ++ ":FUNC ")
              ["VAR1"; "VAR2"; "VARD"; "CONS"] value w) as [Hf1 Hf2].
  destruct (discrete_setter_outcome device AD R
              (":PAGE:CHAN:" ++ id ch ++ ":SRES ")
              ["0OHM"; "10KOHM"; "100KOHM"; "1MOHM"] value w) as [Hr1 Hr2].
  split; [exact Hf1|]. split; [exact Hf2|]. split; [exact Hr1|exact Hr2].
Qed.

Lemma py_in_points :
  forall n : Z,
    py_in (VInt n) VAR2.points_values = true <-> 1 <= n <= 127.
Proof.
  intros n. unfold py_in, VAR2.points_values. rewrite existsb_exists.
  split.
  - intros (v & Hin & Heq). apply in_map_iff in Hin.
    destruct Hin as (k & <- & Hk). apply in_seq in Hk.
    cbn [py_eq num_of] in Heq. apply Qeq_bool_iff in Heq.
    unfold Qeq in Heq. cbn in Heq. lia.
  - intros Hn. exists (VInt n). split.
    + apply in_map_iff. exists (Z.to_nat n). split.
      * f_equal. lia.
      * apply in_seq. lia.
    + cbn [py_eq num_of]. apply Qeq_bool_iff. reflexivity.
Qed.

(** X17: the number of sweep steps of VAR2 takes the whole numbers from 1
    to 127: such a number is written, formatted with [%g], and the error
    queue drained; a whole number outside is refused with the validation
    error and nothing is sent. *)
Theorem points_from_1_to_127 :
  forall (device : Type) (AD : Adapter device) (R : Runtime)
         (n : Z) (w : world device),
    (1 <= n <= 127 ->
     fst (VAR2.points_set (VInt n) w) = Ok tt /\
     trace (snd (VAR2.points_set (VInt n) w)) =
     (trace w ++
        [Write (":PAGE:MEAS:VAR2:POINTS " ++ format_g (inject_Z n));
         CheckErrors])%list) /\
    (~ (1 <= n <= 127) ->
     VAR2.points_set (VInt n) w = (Raise ValueError, w)).
Proof.
  intros device AD R n w.
  pose proof (py_in_points n) as Hin.
  unfold VAR2.points_set, control_set, strict_discrete_set.
  destruct (py_in (VInt n) VAR2.points_values).
  - split; [|intros H; exfalso; apply H; apply Hin; reflexivity].
    intros _.
    cbv [bind lift ret percent_g py_format_g write drain_when check_errors].
    cbn [dev trace logs attrs files].
    destruct (adapter_check_errors _) as [errors d]. cbn [fst snd trace].
    split; [reflexivity|]. rewrite <- app_assoc. reflexivity.
  - split; [|reflexivity].
    intros H. apply Hin in H. discriminate.
Qed.

Lemma mapped_setter_outcome :
  forall (device : Type) (AD : Adapter device) (R : Runtime)
         (prefix : string) (table : list (string * string))
         (name code : string) (w : world device),
    map_set table (VStr name) = Ok (VStr code) ->
    fst (control_set (percent_s prefix) (map_set table) ret true
                     (VStr name) w) = Ok tt /\
    trace (snd (control_set (percent_s prefix) (map_set table) ret true
                            (VStr name) w)) =
    (trace w ++ [Write (prefix ++ code); CheckErrors])%list.
Proof.
  intros device AD R prefix table name code w Hset.
  unfold control_set. cbv [bind lift]. rewrite Hset.
  cbv [ret percent_s py_str write drain_when check_errors bind].
  cbn [dev trace logs attrs files].
  destruct (adapter_check_errors _) as [errors d]. cbn [fst snd trace].
  split; [reflexivity|]. rewrite <- app_assoc. reflexivity.
Qed.

Lemma mapped_getter_outcome :
  forall (device : Type) (AD : Adapter device)
         (command : string) (table : list (string * string))
         (w : world device),
    fst ((reply <- control_get command true ;; lift (map_get table reply)) w)
    = map_get table (adapter_ask command (dev w)).
Proof.
  intros device AD command table w.
  pose proof (control_get_reads device AD command true w) as [Hr _].
  unfold bind. destruct (control_get command true w) as [r w1].
  cbn [fst] in Hr. subst r. reflexivity.
Qed.

(** X18: the operating mode and the spacing are written as the short code
    of the name given (SWEEP as SWE, SAMPLING as SAMP; LINEAR as LIN,
    LOG10 as L10, LOG25 as L25, LOG50 as L50), and an instrument that
    answers with that code reads back as the name: writing and reading
    are inverse on every entry of the two tables. *)
Theorem mapped_values_round_trip :
  forall (device : Type) (AD : Adapter device) (R : Runtime)
         (name code : string) (w w' : world device),
    (In (name, code) analyzer_mode_map ->
     fst (analyzer_mode_set (VStr name) w) = Ok tt /\
     trace (snd (analyzer_mode_set (VStr name) w)) =
     (trace w ++ [Write (":PAGE:CHAN:MODE " ++ code); CheckErrors])%list /\
     (adapter_ask ":PAGE:CHAN:MODE?" (dev w') = code ->
      fst (analyzer_mode w') = Ok name)) /\
    (In (name, code) VAR1.spacing_map ->
     fst (VAR1.spacing_set (VStr name) w) = Ok tt /\
     trace (snd (VAR1.spacing_set (VStr name) w)) =
     (trace w ++ [Write (":PAGE:MEAS:VAR1:SPAC " ++ code); CheckErrors])%list /\
     (adapter_ask ":PAGE:MEAS:VAR1:SPAC?" (dev w') = code ->
      fst (VAR1.spacing w') = Ok name)).
Proof.
  intros device AD R name code w w'.
  split; intros Hin.
  - assert (Hmaps : map_set analyzer_mode_map (VStr name) = Ok (VStr code) /\
                    map_get analyzer_mode_map code = Ok name).
    { unfold analyzer_mode_map in Hin. cbn [In] in Hin.
      repeat (destruct Hin as [Hin|Hin];
              [inversion Hin; subst; split; reflexivity|]).
      contradiction. }
    destruct Hmaps as [Hset Hget].
    destruct (mapped_setter_outcome device AD R ":PAGE:CHAN:MODE "
                analyzer_mode_map name code w Hset) as [Hok Htrace].
    split; [exact Hok|]. split; [exact Htrace|].
    intros Hreply. unfold analyzer_mode.
    rewrite mapped_getter_outcome, Hreply. exact Hget.
  - assert (Hmaps : map_set VAR1.spacing_map (VStr name) = Ok (VStr code) /\
                    map_get VAR1.spacing_map code = Ok name).
    { unfold VAR1.spacing_map in Hin. cbn [In] in Hin.
      repeat (destruct Hin as [Hin|Hin];
              [inversion Hin; subst; split; reflexivity|]).
      contradiction. }
    destruct Hmaps as [Hset Hget].
    destruct (mapped_setter_outcome device AD R ":PAGE:MEAS:VAR1:SPAC "
                VAR1.spacing_map name code w Hset) as [Hok Htrace].
    split; [exact Hok|]. split; [exact Htrace|].
    intros Hreply. unfold VAR1.spacing.
    rewrite mapped_getter_outcome.
    change (":PAGE:MEAS:" ++ VAR1.id ++ ":SPAC?")
      with ":PAGE:MEAS:VAR1:SPAC?".
    rewrite Hreply. exact Hget.
Qed.

(** ** Measuring, continued *)

(** X19: [measure] checks neither argument: when the operating mode does
    not read SWEEP, the period and the number of points are written as
    they are given, whatever they are, followed by the single measurement;
    when it reads SWEEP both arguments are ignored. *)
Theorem measure_arguments_unchecked :
  forall (device : Type) (AD : Adapter device) (R : Runtime)
         (period points : pyvalue) (w : world device) (mode : string),
    fst (analyzer_mode w) = Ok mode ->
    fst (Agilent4156.measure period points w) = Ok tt /\
    trace (snd (Agilent4156.measure period points w)) =
    (trace (snd (analyzer_mode w)) ++
       if (mode =? "SWEEP")%string
       then [Write ":PAGE:SCON:MEAS:SING; *OPC?"]
       else [Write (":PAGE:MEAS:SAMP:PER " ++ py_str period);
             Write (":PAGE:MEAS:SAMP:POIN " ++ py_str points);
             Write ":PAGE:SCON:MEAS:SING; *OPC?"])%list.
Proof.
  intros device AD R period points w mode Hmode.
  assert (Hsteps : Agilent4156.measure period points w =
    match analyzer_mode w with
    | (Ok mode, w1) =>
        (if (mode =? "SWEEP")%string
         then write ":PAGE:SCON:MEAS:SING; *OPC?"
         else (write (":PAGE:MEAS:SAMP:PER " ++ py_str period) ;;;
               write (":PAGE:MEAS:SAMP:POIN " ++ py_str points) ;;;
               write ":PAGE:SCON:MEAS:SING; *OPC?")) w1
    | (Raise e, w1) => (Raise e, w1)
    end) by reflexivity.
  rewrite Hsteps. clear Hsteps.
  destruct (analyzer_mode w) as [r w1]. cbn [fst snd] in *. subst r.
  destruct (mode =? "SWEEP")%string.
  - split; reflexivity.
  - cbv [bind write]. cbn [fst snd trace dev logs attrs files].
    split; [reflexivity|]. rewrite <- !app_assoc. reflexivity.
Qed.

(** ** The queries of a scan *)

Lemma scan_trace :
  forall (device : Type) (AD : Adapter device) (role : string)
         (chs : list string) (ch_mode : option string) (w : world device),
    trace (snd (VARX.scan role chs ch_mode w)) =
    (trace w ++ scan_queries (dev w) role chs)%list.
Proof.
  intros device AD role chs.
  induction chs as [|ch rest IH]; intros ch_mode w.
  - cbn. symmetry. apply app_nil_r.
  - cbn [VARX.scan scan_queries flat_map]. unfold bind at 1. cbn [ask].
    unfold plays at 1, function_of.
    destruct (adapter_ask (":PAGE:CHAN:" ++ ch ++ ":FUNC?") (dev w) =? role)%string.
    + unfold bind at 1. cbn [ask dev trace logs attrs files].
      etransitivity; [apply IH|]. cbn [dev trace].
      rewrite <- !app_assoc. reflexivity.
    + etransitivity; [apply IH|]. cbn [dev trace].
      rewrite <- !app_assoc. reflexivity.
Qed.

(** X20: reading the mode of a sweep variable never stops early: it asks
    each of the six channels for its function, in the fixed order, and
    asks for the mode of every channel that has the sweep variable's
    designator, so between six and twelve queries in all, whether the
    read succeeds or not. *)
Theorem channel_mode_queries :
  forall (device : Type) (AD : Adapter device) (role : string)
         (w : world device),
    trace (snd (VARX.channel_mode role w)) =
    (trace w ++ scan_queries (dev w) role channels)%list /\
    (6 <= List.length (scan_queries (dev w) role channels) <= 12)%nat.
Proof.
  intros device AD role w. split.
  - pose proof (scan_trace device AD role channels None w) as Ht.
    unfold VARX.channel_mode, bind.
    destruct (VARX.scan role channels None w) as [[[m|]|e] w1];
      exact Ht.
  - unfold scan_queries, channels. cbn [flat_map].
    repeat match goal with
           | |- context [plays ?d ?r ?c] => destruct (plays d r c)
           end; cbn; lia.
Qed.

(** * The further properties at work on the benches *)

Lemma string_append_nil :
  forall s : string, s ++ "" = s.
Proof.
  induction s as [|c s IH]; simpl; [reflexivity|]. rewrite IH. reflexivity.
Qed.


Lemma signal_name_check_idempotent_witness :
  fst (check_current_voltage_name "1collector" sweep_bench) = Ok "a1coll" /\
  fst (check_current_voltage_name "a1coll"
         (snd (check_current_voltage_name "1collector" sweep_bench)))
  = Ok "a1coll".
Proof.
  split; [reflexivity|].
  rewrite (signal_name_check_idempotent bench "1collector" "a1coll"
             sweep_bench
             (snd (check_current_voltage_name "1collector" sweep_bench))
             eq_refl).
  reflexivity.
Defined.


(** VAR1 on the sweep bench is a voltage sweep: a start of 1 is sent. *)
Lemma sweep_start_stop_validated_witness :
  fst (VARX.channel_mode VAR1.id sweep_bench) = Ok "V" /\
  valid_iv "V" = Ok [-200; 200] /\
  strict_range (VInt 1) [-200; 200] = Ok (VInt 1) /\
  writes (trace (snd (VARX.start_set VAR1.id (VInt 1) sweep_bench)))
  = [Write ":PAGE:MEAS:VAR1:STAR 1"].
Proof.
  assert (Hmode : fst (VARX.channel_mode VAR1.id sweep_bench) = Ok "V")
    by reflexivity.
  assert (Hvalid : valid_iv "V" = Ok [-200; 200]) by reflexivity.
  assert (Hok : strict_range (VInt 1) [-200; 200] = Ok (VInt 1))
    by reflexivity.
  split; [exact Hmode|]. split; [exact Hvalid|]. split; [exact Hok|].
  destruct (sweep_start_stop_validated bench bench_adapter bench_runtime
              VAR1.id (VInt 1) sweep_bench "V" [-200; 200] Hmode Hvalid)
    as [Haccept _].
  destruct (Haccept Hok) as (_ & Htrace & _).
  rewrite Htrace. reflexivity.
Defined.

Lemma no_owner_on_sampling_bench :
  forall ch, In ch channels ->
             function_of (dev sampling_bench) ch <> VAR1.id.
Proof.
  intros ch Hin. unfold channels in Hin. cbn [In] in Hin.
  repeat (destruct Hin as [<-|Hin]; [discriminate|]).
  contradiction.
Defined.

(** No channel of the sampling bench has the function VAR1. *)
Lemma sweep_setters_need_owner_witness :
  fst (VARX.start_set VAR1.id (VInt 1) sampling_bench)
    = Raise UnboundLocalError /\
  fst (VARX.compliance_set VAR1.id (VInt 1) sampling_bench)
    = Raise UnboundLocalError.
Proof.
  destruct (sweep_setters_need_owner bench bench_adapter bench_runtime
              VAR1.id (VInt 1) sampling_bench no_owner_on_sampling_bench)
    as ([H1 _] & _ & _ & [H4 _] & _).
  split; [exact H1|exact H4].
Defined.

(** The owner of VAR1 on the common bench is in mode COMM. *)
Lemma sweep_setters_need_v_or_i_witness :
  fst (VARX.channel_mode VAR1.id common_bench) = Ok "COMM" /\
  fst (VARX.step_set VAR1.id (VInt 1) common_bench) = Raise ValueError.
Proof.
  assert (Hmode : fst (VARX.channel_mode VAR1.id common_bench) = Ok "COMM")
    by reflexivity.
  assert (HV : "COMM" <> "V") by discriminate.
  assert (HI : "COMM" <> "I") by discriminate.
  split; [exact Hmode|].
  destruct (sweep_setters_need_v_or_i bench bench_adapter bench_runtime
              VAR1.id (VInt 1) common_bench "COMM" Hmode HV HI)
    as (_ & _ & [H3 _] & _).
  exact H3.
Defined.

(** The compliance of a voltage sweep is a current: 1 is the largest. *)
Lemma sweep_compliance_offset_range_witness :
  fst (VARX.channel_mode VAR1.id sweep_bench) = Ok "V" /\
  valid_compliance "V" = Ok [-1; 1] /\
  fst (VARX.compliance_set VAR1.id (VInt 1) sweep_bench) = Ok tt.
Proof.
  assert (Hmode : fst (VARX.channel_mode VAR1.id sweep_bench) = Ok "V")
    by reflexivity.
  assert (Hvalid : valid_compliance "V" = Ok [-1; 1]) by reflexivity.
  split; [exact Hmode|]. split; [exact Hvalid|].
  destruct (sweep_compliance_offset_range bench bench_adapter bench_runtime
              VAR1.id (VInt 1) sweep_bench) as [Hcompl _].
  apply (Hcompl "V" [-1; 1] Hmode Hvalid). reflexivity.
Defined.

(** 300 is outside the range of a voltage source. *)
Lemma vsu_constant_value_range_witness :
  num_of (VInt 300) = Some (inject_Z 300) /\
  VSU.constant_value_set Agilent4156.vsu1 (VInt 300) sweep_bench
  = (Raise ValueError, sweep_bench).
Proof.
  assert (Hnum : num_of (VInt 300) = Some (inject_Z 300)) by reflexivity.
  split; [exact Hnum|].
  destruct (vsu_constant_value_range bench bench_adapter bench_runtime
              Agilent4156.vsu1 (VInt 300) sweep_bench) as [Hout _].
  apply (Hout (inject_Z 300) Hnum).
  intros [_ H]. unfold Qle in H. simpl in H. lia.
Defined.

(** SMU3 on the sweep bench is a constant source in mode V: a value of 5
    is written and a compliance of 5 refused. *)
Lemma smu_constant_checked_witness :
  "V" <> "COMM" /\
  writes (trace (snd (SMU.constant_value_set Agilent4156.smu3 (VInt 5)
                                             sweep_bench)))
  = [Write ":PAGE:MEAS:CONS:SMU3 5"] /\
  fst (SMU.compliance_set Agilent4156.smu3 (VInt 5) sweep_bench)
  = Raise ValueError.
Proof.
  assert (Hcomm : "V" <> "COMM") by discriminate.
  split; [exact Hcomm|].
  destruct (smu_constant_checked bench bench_adapter bench_runtime
              Agilent4156.smu3 (VInt 5) sweep_bench _ _ _ "V" "V"
              eq_refl Hcomm eq_refl eq_refl) as (_ & _ & Hcompl & Hvalue).
  split.
  - destruct (Hvalue [-200; 200] eq_refl eq_refl eq_refl) as [_ Htrace].
    rewrite Htrace. reflexivity.
  - rewrite (Hcompl [-1; 1] ValueError eq_refl eq_refl). reflexivity.
Defined.

Lemma save_shapes_witness :
  (List.length (map VStr ["IC"; "IB"; "VC"; "VB"]) <= 8)%nat /\
  trace (snd (Agilent4156.save (TraceList (map VStr ["IC"; "IB"; "VC"; "VB"]))
                               sweep_bench))
  = [Write ":PAGE:DISP:MODE LIST"; Write ":PAGE:DISP:LIST 'IC'";
     Write ":PAGE:DISP:LIST 'IB'"; Write ":PAGE:DISP:LIST 'VC'";
     Write ":PAGE:DISP:LIST 'VB'"].
Proof.
  assert (Hlen : (List.length (map VStr ["IC"; "IB"; "VC"; "VB"]) <= 8)%nat)
    by (simpl; lia).
  split; [exact Hlen|].
  destruct (save_shapes bench bench_adapter bench_runtime sweep_bench)
    as (Hlist & _).
  destruct (Hlist (map VStr ["IC"; "IB"; "VC"; "VB"]) Hlen) as [_ Htrace].
  rewrite Htrace. reflexivity.
Defined.

Lemma string_length_append :
  forall a b : string,
    String.length (a ++ b) = (String.length a + String.length b)%nat.
Proof.
  induction a as [|c a IH]; intros b; simpl; [reflexivity|].
  rewrite IH. reflexivity.
Qed.

(** The saved variables of the measured bench. *)
Lemma data_variables_names_witness :
  fst (Agilent4156.data_variables measured_bench) = Ok ["IC"; "VB"] /\
  forall name, In name ["IC"; "VB"] ->
               name <> "" /\ contains_char "," name = false.
Proof.
  destruct (data_variables_names bench bench_adapter measured_bench)
    as (names & Hrun & Hnames & Hpieces & _).
  assert (Heq : names = ["IC"; "VB"]) by (rewrite Hnames; reflexivity).
  rewrite Heq in Hrun, Hpieces.
  split; [exact Hrun|exact Hpieces].
Defined.

Lemma measured_bench_columns :
  forall name,
    In name ["IC"; "VB"] ->
    List.length
      (data_column (adapter_write ":FORM:DATA ASC" (dev measured_bench)) name)
    = 3%nat.
Proof.
  intros name Hin. cbn [In] in Hin.
  destruct Hin as [<-|[<-|[]]]; reflexivity.
Defined.

(** The table of the measured bench, row by row. *)
Lemma get_data_table_witness :
  py_int (adapter_ask "*OPC?" (dev measured_bench)) = Ok 1 /\
  fst (Agilent4156.get_data None measured_bench) =
  Ok (mkDataFrame ["IC"; "VB"] [[1%Q; 4%Q]; [2%Q; 5%Q]; [3%Q; 6%Q]]) /\
  writes (trace (snd (Agilent4156.get_data None measured_bench)))
  = [Write ":FORM:DATA ASC"].
Proof.
  assert (Hopc : py_int (adapter_ask "*OPC?" (dev measured_bench)) = Ok 1)
    by reflexivity.
  assert (Hdone : 1 <> 0) by discriminate.
  assert (Hne : ["IC"; "VB"] <> []) by discriminate.
  split; [exact Hopc|].
  destruct (get_data_table bench bench_adapter bench_runtime measured_bench
              1 ["IC"; "VB"] 3 Hopc Hdone eq_refl Hne measured_bench_columns)
    as (w' & Hrun & _ & Hwrites).
  rewrite Hrun. cbn [fst snd]. split; [reflexivity|exact Hwrites].
Defined.


Lemma bench_splitext_law :
  forall p, fst (@splitext bench_runtime p) ++ snd (@splitext bench_runtime p)
            = p.
Proof.
  intros p. cbn [splitext bench_runtime fst snd]. apply string_append_nil.
Defined.

(** The table of the measured bench goes to run7.csv. *)
Lemma get_data_export_witness :
  exists w',
    Agilent4156.get_data None measured_bench =
    (Ok (mkDataFrame ["IC"; "VB"] [[1%Q; 4%Q]; [2%Q; 5%Q]; [3%Q; 6%Q]]), w') /\
    files (snd (Agilent4156.get_data (Some "run7") measured_bench)) =
    [("run7.csv",
      mkDataFrame ["IC"; "VB"] [[1%Q; 4%Q]; [2%Q; 5%Q]; [3%Q; 6%Q]])].
Proof.
  exists (snd (Agilent4156.get_data None measured_bench)).
  assert (Hrun :
    Agilent4156.get_data None measured_bench =
    (Ok (mkDataFrame ["IC"; "VB"] [[1%Q; 4%Q]; [2%Q; 5%Q]; [3%Q; 6%Q]]),
     snd (Agilent4156.get_data None measured_bench))) by reflexivity.
  split; [exact Hrun|].
  destruct (get_data_export bench bench_adapter bench_runtime "run7"
              measured_bench _ _ bench_splitext_law Hrun)
    as (stem & Hexport & Hstem).
  rewrite Hexport. cbn [snd files].
  destruct Hstem as [->|Hstem]; [reflexivity|].
  exfalso.
  assert (Hlen : String.length "run7" = String.length (stem ++ ".csv"))
    by (rewrite <- Hstem; reflexivity).
  rewrite string_length_append in Hlen.
  destruct stem as [|c stem]; [discriminate Hstem|].
  simpl in Hlen. lia.
Defined.




(** A voltage-source channel takes the function VAR2; a source-measure
    channel refuses a resistance of 5OHM. *)
Lemma channel_function_and_resistance_sets_witness :
  trace (snd (AgilentMeasurementChannel.channel_function_set Agilent4156.vsu1
                (VStr "VAR2") sweep_bench))
  = [Write ":PAGE:CHAN:VSU1:FUNC VAR2"; CheckErrors] /\
  SMU.series_resistance_set Agilent4156.smu1 (VStr "5OHM") sweep_bench
  = (Raise ValueError, sweep_bench).
Proof.
  destruct (channel_function_and_resistance_sets bench bench_adapter
              bench_runtime Agilent4156.vsu1 (VStr "VAR2") sweep_bench)
    as (Hset & _).
  destruct (channel_function_and_resistance_sets bench bench_adapter
              bench_runtime Agilent4156.smu1 (VStr "5OHM") sweep_bench)
    as (_ & _ & _ & Hrefuse).
  split.
  - destruct Hset as [_ Htrace]; [cbn; tauto|].
    rewrite Htrace. reflexivity.
  - apply Hrefuse. cbn [In].
    intros [H|[H|[H|[H|[]]]]]; discriminate H.
Defined.

(** 127 steps are accepted, 128 are not. *)
Lemma points_from_1_to_127_witness :
  trace (snd (VAR2.points_set (VInt 127) sweep_bench))
  = [Write ":PAGE:MEAS:VAR2:POINTS 127"; CheckErrors] /\
  VAR2.points_set (VInt 128) sweep_bench = (Raise ValueError, sweep_bench).
Proof.
  destruct (points_from_1_to_127 bench bench_adapter bench_runtime 127
              sweep_bench) as [Hin _].
  destruct (points_from_1_to_127 bench bench_adapter bench_runtime 128
              sweep_bench) as [_ Hout].
  split.
  - destruct Hin as [_ Htrace]; [lia|]. rewrite Htrace. reflexivity.
  - apply Hout. lia.
Defined.

(** SWEEP goes out as SWE, and the sweep bench, which answers SWE, reads
    back as SWEEP. *)
Lemma mapped_values_round_trip_witness :
  In ("SWEEP", "SWE") analyzer_mode_map /\
  trace (snd (analyzer_mode_set (VStr "SWEEP") sampling_bench))
  = [Write ":PAGE:CHAN:MODE SWE"; CheckErrors] /\
  fst (analyzer_mode sweep_bench) = Ok "SWEEP".
Proof.
  assert (Hin : In ("SWEEP", "SWE") analyzer_mode_map) by (cbn; tauto).
  split; [exact Hin|].
  destruct (mapped_values_round_trip bench bench_adapter bench_runtime
              "SWEEP" "SWE" sampling_bench sweep_bench) as [Hmode _].
  destruct (Hmode Hin) as (_ & Htrace & Hback).
  split; [rewrite Htrace; reflexivity|].
  apply Hback. reflexivity.
Defined.

(** On the sampling bench a period given as a string goes out as it is. *)
Lemma measure_arguments_unchecked_witness :
  fst (analyzer_mode sampling_bench) = Ok "SAMPLING" /\
  writes (trace (snd (Agilent4156.measure (VStr "fast") (VInt (-3))
                                          sampling_bench)))
  = [Write ":PAGE:MEAS:SAMP:PER fast"; Write ":PAGE:MEAS:SAMP:POIN -3";
     Write ":PAGE:SCON:MEAS:SING; *OPC?"].
Proof.
  assert (Hmode : fst (analyzer_mode sampling_bench) = Ok "SAMPLING")
    by reflexivity.
  split; [exact Hmode|].
  destruct (measure_arguments_unchecked bench bench_adapter bench_runtime
              (VStr "fast") (VInt (-3)) sampling_bench "SAMPLING" Hmode)
    as [_ Htrace].
  rewrite Htrace. reflexivity.
Defined.
